(** * network-monitor-pi: the curses dashboard of [foreground.py]

    A shallow embedding of the [NetworkMonitor] class: the metric records
    written by the collector threads, the spinner, the quadrant layout and the
    panel renderer, over a small model of a curses window. *)

From Stdlib Require Import ZArith List String Ascii Bool Lia.
Import ListNotations.
Open Scope Z_scope.

(** ** Python values *)

Module Py.

(** A Python [str] is a sequence of code points. *)
Definition str := list N.

Definition lit (s : string) : str := map N_of_ascii (list_ascii_of_string s).

Definition len {A : Type} (l : list A) : Z := Z.of_nat (List.length l).

Fixpoint str_eqb (a b : str) : bool :=
  match a, b with
  | [], [] => true
  | c :: a', d :: b' => N.eqb c d && str_eqb a' b'
  | _, _ => false
  end.

(** [l[:stop]]: a negative [stop] counts from the end. *)
Definition slice_to {A : Type} (l : list A) (stop : Z) : list A :=
  if 0 <=? stop then firstn (Z.to_nat stop) l
  else firstn (Z.to_nat (len l + stop)) l.

(** [l[i]]; [None] stands for IndexError. *)
Definition index {A : Type} (l : list A) (i : Z) : option A :=
  if 0 <=? i then nth_error l (Z.to_nat i)
  else if - len l <=? i then nth_error l (Z.to_nat (len l + i))
  else None.

(** [s.split(sep)] for a one-character separator. *)
Fixpoint split (sep : N) (s : str) : list str :=
  match s with
  | [] => [[]]
  | c :: r =>
      if N.eqb c sep then [] :: split sep r
      else match split sep r with
           | l :: ls => (c :: l) :: ls
           | [] => [[c]]
           end
  end.

Definition newline : N := 10%N.

Definition enumerate {A : Type} (l : list A) : list (Z * A) :=
  combine (map Z.of_nat (seq 0 (List.length l))) l.

Definition range (n : Z) : list Z := map Z.of_nat (seq 0 (Z.to_nat n)).

(** Truth value of a [str]-or-[None] object. *)
Definition truthy (o : option str) : bool :=
  match o with
  | None => false
  | Some [] => false
  | Some (_ :: _) => true
  end.

(** [str(o)]. *)
Definition str_of (o : option str) : str :=
  match o with
  | None => lit "None"
  | Some s => s
  end.

End Py.

(** ** The curses window

    The window keeps its size, its cursor and the cells written since the last
    [clear], newest first.  Every code point is taken to fill one cell.  A
    move outside the window fails; writing the lower-right cell stores the
    glyph and then fails because the cursor cannot advance.  The Python
    binding turns each failure into [curses.error]. *)

Module Curses.

Inductive glyph :=
| Char (c : N)
| ACS_HLINE
| ACS_VLINE
| ACS_PLUS.

Definition color_pair (n : Z) : Z := Z.shiftl n 8.
Definition A_NORMAL : Z := 0.
Definition A_BOLD : Z := Z.shiftl 1 21.

Record cell := { row : Z; col : Z; what : glyph; how : Z }.

Record window := {
  max_y : Z;
  max_x : Z;
  cur_y : Z;
  cur_x : Z;
  cells : list cell
}.

Inductive rc := OK | ERR.

Definition inside (w : window) (y x : Z) : bool :=
  (0 <=? y) && (y <? max_y w) && (0 <=? x) && (x <? max_x w).

Definition wmove (w : window) (y x : Z) : window * rc :=
  if inside w y x
  then ({| max_y := max_y w; max_x := max_x w; cur_y := y; cur_x := x;
           cells := cells w |}, OK)
  else (w, ERR).

Definition waddch (w : window) (g : glyph) (a : Z) : window * rc :=
  let cs := {| row := cur_y w; col := cur_x w; what := g; how := a |} :: cells w in
  if cur_x w + 1 <? max_x w
  then ({| max_y := max_y w; max_x := max_x w; cur_y := cur_y w;
           cur_x := cur_x w + 1; cells := cs |}, OK)
  else if cur_y w + 1 <? max_y w
  then ({| max_y := max_y w; max_x := max_x w; cur_y := cur_y w + 1;
           cur_x := 0; cells := cs |}, OK)
  else ({| max_y := max_y w; max_x := max_x w; cur_y := cur_y w;
           cur_x := cur_x w; cells := cs |}, ERR).

Fixpoint waddstr (w : window) (s : Py.str) (a : Z) : window * rc :=
  match s with
  | [] => (w, OK)
  | c :: r =>
      match waddch w (Char c) a with
      | (w1, OK) => waddstr w1 r a
      | (w1, ERR) => (w1, ERR)
      end
  end.

Definition mvwaddch (w : window) (y x : Z) (g : glyph) (a : Z) : window * rc :=
  match wmove w y x with
  | (w1, OK) => waddch w1 g a
  | (w1, ERR) => (w1, ERR)
  end.

Definition mvwaddstr (w : window) (y x : Z) (s : Py.str) (a : Z) : window * rc :=
  match wmove w y x with
  | (w1, OK) => waddstr w1 s a
  | (w1, ERR) => (w1, ERR)
  end.

Definition wclear (w : window) : window :=
  {| max_y := max_y w; max_x := max_x w; cur_y := 0; cur_x := 0; cells := [] |}.

Definition newwin (h w : Z) : window :=
  {| max_y := h; max_x := w; cur_y := 0; cur_x := 0; cells := [] |}.

(** The glyphs written on one row, oldest first. *)
Definition on_row (w : window) (y : Z) : list (Z * glyph) :=
  rev (map (fun c => (col c, what c)) (filter (fun c => Z.eqb (row c) y) (cells w))).

End Curses.

(** ** The monitor object *)

Record MetricRecord := { status : Py.str; data : option Py.str }.

Inductive Metric := Bandwidth | Latency | Stability | Routing | Protocol.

Record NetworkMonitor := {
  screen : Curses.window;
  spinner_idx : Z;
  bandwidth_data : MetricRecord;
  latency_data : MetricRecord;
  stability_data : MetricRecord;
  routing_data : MetricRecord;
  protocol_data : MetricRecord;
  running : bool
}.

(** Attributes and spinner frames, assigned once by [__init__]. *)
Definition GREEN : Z := Curses.color_pair 1.
Definition BLUE : Z := Curses.color_pair 2.
Definition YELLOW : Z := Curses.color_pair 3.
Definition RED : Z := Curses.color_pair 4.

Definition spinner : list Py.str :=
  [[10251%N]; [10265%N]; [10297%N]; [10296%N]; [10300%N];
   [10292%N]; [10278%N]; [10279%N]; [10247%N]; [10255%N]].

Definition Initializing : Py.str := Py.lit "Initializing...".
Definition Updating : Py.str := Py.lit "Updating...".
Definition Ok : Py.str := Py.lit "OK".
Definition Error (e : Py.str) : Py.str := Py.lit "Error: " ++ e.

Definition fresh : MetricRecord := {| status := Initializing; data := None |}.

Definition init (stdscr : Curses.window) : NetworkMonitor :=
  {| screen := stdscr; spinner_idx := 0;
     bandwidth_data := fresh; latency_data := fresh; stability_data := fresh;
     routing_data := fresh; protocol_data := fresh;
     running := true |}.

Definition get_record (self : NetworkMonitor) (m : Metric) : MetricRecord :=
  match m with
  | Bandwidth => bandwidth_data self
  | Latency => latency_data self
  | Stability => stability_data self
  | Routing => routing_data self
  | Protocol => protocol_data self
  end.

Definition set_record (self : NetworkMonitor) (m : Metric) (r : MetricRecord)
  : NetworkMonitor :=
  {| screen := screen self; spinner_idx := spinner_idx self;
     bandwidth_data := match m with Bandwidth => r | _ => bandwidth_data self end;
     latency_data := match m with Latency => r | _ => latency_data self end;
     stability_data := match m with Stability => r | _ => stability_data self end;
     routing_data := match m with Routing => r | _ => routing_data self end;
     protocol_data := match m with Protocol => r | _ => protocol_data self end;
     running := running self |}.

(** [self.<m>_data["status"] = s] and [self.<m>_data["data"] = d]: one dict
    item store each. *)
Definition store_status (self : NetworkMonitor) (m : Metric) (s : Py.str) :=
  set_record self m {| status := s; data := data (get_record self m) |}.

Definition store_data (self : NetworkMonitor) (m : Metric) (d : option Py.str) :=
  set_record self m {| status := status (get_record self m); data := d |}.

Definition set_screen (self : NetworkMonitor) (w : Curses.window) : NetworkMonitor :=
  {| screen := w; spinner_idx := spinner_idx self;
     bandwidth_data := bandwidth_data self; latency_data := latency_data self;
     stability_data := stability_data self; routing_data := routing_data self;
     protocol_data := protocol_data self; running := running self |}.

Definition set_spinner_idx (self : NetworkMonitor) (i : Z) : NetworkMonitor :=
  {| screen := screen self; spinner_idx := i;
     bandwidth_data := bandwidth_data self; latency_data := latency_data self;
     stability_data := stability_data self; routing_data := routing_data self;
     protocol_data := protocol_data self; running := running self |}.

Definition set_running (self : NetworkMonitor) (b : bool) : NetworkMonitor :=
  {| screen := screen self; spinner_idx := spinner_idx self;
     bandwidth_data := bandwidth_data self; latency_data := latency_data self;
     stability_data := stability_data self; routing_data := routing_data self;
     protocol_data := protocol_data self; running := b |}.

(** ** Methods: state that survives an exception *)

Inductive exn := curses_error | IndexError.

Inductive outcome (A : Type) :=
| Return (a : A) (self : NetworkMonitor)
| Raise (e : exn) (self : NetworkMonitor).
Arguments Return {A} a self.
Arguments Raise {A} e self.

Definition M (A : Type) := NetworkMonitor -> outcome A.

Definition ret {A : Type} (a : A) : M A := fun self => Return a self.

Definition bind {A B : Type} (m : M A) (f : A -> M B) : M B :=
  fun self =>
    match m self with
    | Return a self1 => f a self1
    | Raise e self1 => Raise e self1
    end.

Declare Scope py_scope.
Delimit Scope py_scope with py.
Notation "x <- m ;; k" := (bind m (fun x => k))
  (at level 61, m at next level, right associativity) : py_scope.
Notation "m ;; k" := (bind m (fun _ => k))
  (at level 61, right associativity) : py_scope.
Open Scope py_scope.

Definition final {A : Type} (o : outcome A) : NetworkMonitor :=
  match o with
  | Return _ self => self
  | Raise _ self => self
  end.

Definition raised {A : Type} (o : outcome A) : option exn :=
  match o with
  | Return _ _ => None
  | Raise e _ => Some e
  end.

Fixpoint for_ {A : Type} (l : list A) (body : A -> M unit) : M unit :=
  match l with
  | [] => ret tt
  | a :: r => body a ;; for_ r body
  end.

(** [self.screen.<call>]: a failed curses call raises [curses.error]. *)
Definition on_screen (f : Curses.window -> Curses.window * Curses.rc) : M unit :=
  fun self =>
    match f (screen self) with
    | (w, Curses.OK) => Return tt (set_screen self w)
    | (w, Curses.ERR) => Raise curses_error (set_screen self w)
    end.

Definition addch (y x : Z) (g : Curses.glyph) : M unit :=
  on_screen (fun w => Curses.mvwaddch w y x g Curses.A_NORMAL).

Definition addstr_at (y x : Z) (s : Py.str) (a : Z) : M unit :=
  on_screen (fun w => Curses.mvwaddstr w y x s a).

Definition addstr (s : Py.str) (a : Z) : M unit :=
  on_screen (fun w => Curses.waddstr w s a).

Definition clear : M unit :=
  on_screen (fun w => (Curses.wclear w, Curses.OK)).

Definition refresh : M unit := ret tt.

Definition getmaxyx : M (Z * Z) :=
  fun self => Return (Curses.max_y (screen self), Curses.max_x (screen self)) self.

Definition load (m : Metric) : M MetricRecord :=
  fun self => Return (get_record self m) self.

Definition get_spinner : M Py.str :=
  fun self =>
    match Py.index spinner (spinner_idx self) with
    | None => Raise IndexError self
    | Some char =>
        Return char (set_spinner_idx self ((spinner_idx self + 1) mod Py.len spinner))
    end.

Definition draw_borders : M unit :=
  yx <- getmaxyx ;;
  let '(max_y, max_x) := yx in
  let mid_y := max_y / 2 in
  let mid_x := max_x / 2 in
  for_ (Py.range max_x) (fun x => addch mid_y x Curses.ACS_HLINE) ;;
  for_ (Py.range max_y) (fun y => addch y mid_x Curses.ACS_VLINE) ;;
  addch mid_y mid_x Curses.ACS_PLUS.

(** The [for] loop of [draw_panel] over the enumerated, sliced lines. *)
Definition draw_lines (ls : list (Z * Py.str)) (y x height width : Z) : M unit :=
  for_ ls (fun il =>
    let '(i, line) := il in
    if y + i + 1 <? height
    then addstr_at (y + i + 1) x (Py.slice_to line (width - 2)) Curses.A_NORMAL
    else ret tt).

Definition status_color (st : Py.str) : Z :=
  if Py.str_eqb st Ok then GREEN else RED.

(** [data] is a reference to one of the monitor's dicts, read at each use. *)
Definition draw_panel (title : Py.str) (data_ : Metric) (y x height width : Z)
  : M unit :=
  r1 <- load data_ ;;
  spinner_ <- (if Py.str_eqb (status r1) Updating then get_spinner
               else ret (Py.lit " ")) ;;
  r2 <- load data_ ;;
  addstr_at y x (Py.lit "=== " ++ title ++ Py.lit " === ") BLUE ;;
  addstr spinner_ YELLOW ;;
  r3 <- load data_ ;;
  addstr (Py.lit "[" ++ status r3 ++ Py.lit "]") (status_color (status r2)) ;;
  r4 <- load data_ ;;
  if Py.truthy (data r4)
  then
    r5 <- load data_ ;;
    let lines := Py.split Py.newline (Py.str_of (data r5)) in
    draw_lines (Py.enumerate (Py.slice_to lines (height - 2))) y x height width
  else ret tt.

Record Rect := { top : Z; left : Z; height : Z; width : Z }.

(** The four [draw_panel] calls of [draw_screen]: title, record, rectangle. *)
Definition panels (max_y max_x : Z) : list (Py.str * Metric * Rect) :=
  let mid_y := max_y / 2 in
  let mid_x := max_x / 2 in
  [ (Py.lit "Bandwidth", Bandwidth,
     {| top := 2; left := 1; height := mid_y - 1; width := mid_x - 1 |});
    (Py.lit "Latency", Latency,
     {| top := 2; left := mid_x + 1; height := mid_y - 1; width := mid_x - 1 |});
    (Py.lit "Stability", Stability,
     {| top := mid_y + 1; left := 1; height := mid_y - 1; width := mid_x - 1 |});
    (Py.lit "Routing", Routing,
     {| top := mid_y + 1; left := mid_x + 1; height := mid_y - 1; width := mid_x - 1 |}) ].

Definition title : Py.str := Py.lit "Network Performance Monitor".

(** [timestamp] is the text of [datetime.now().strftime(...)]. *)
Definition draw_screen (timestamp : Py.str) : M unit :=
  clear ;;
  yx <- getmaxyx ;;
  let '(max_y, max_x) := yx in
  draw_borders ;;
  addstr_at 0 ((max_x - Py.len title) / 2) title (Z.lor GREEN Curses.A_BOLD) ;;
  for_ (panels max_y max_x) (fun p =>
    let '(t, m, r) := p in
    draw_panel t m (top r) (left r) (height r) (width r)) ;;
  addstr_at (max_y - 1) 1 (Py.lit "Last update: " ++ timestamp) Curses.A_NORMAL ;;
  refresh.

(** ** Collector threads

    [update_bandwidth] and [update_latency] have the same body up to the
    record, the command and the sleep.  One thread is a program counter over
    the statements of that body; a step executes one statement, so the other
    threads may run between any two of them.  [probe] is what
    [subprocess.run] does when it is reached: it returns the captured
    standard output, or raises an exception whose text is [e]. *)

Inductive ProbeResult :=
| Completed (stdout : Py.str)
| Failed (e : Py.str).

Inductive Pc :=
| AtWhile
| AtUpdating
| AtRun
| AtStoreData (result : Py.str)
| AtStoreOk (result : Py.str)
| AtExcept (e : Py.str)
| AtSleep
| Finished.

Definition collector (m : Metric) (probe : ProbeResult)
  (self : NetworkMonitor) (pc : Pc) : NetworkMonitor * Pc :=
  match pc with
  | AtWhile => if running self then (self, AtUpdating) else (self, Finished)
  | AtUpdating => (store_status self m Updating, AtRun)
  | AtRun =>
      match probe with
      | Completed stdout => (self, AtStoreData stdout)
      | Failed e => (self, AtExcept e)
      end
  | AtStoreData result => (store_data self m (Some result), AtStoreOk result)
  | AtStoreOk _ => (store_status self m Ok, AtSleep)
  | AtExcept e => (store_status self m (Error e), AtSleep)
  | AtSleep => (self, AtWhile)
  | Finished => (self, Finished)
  end.

Definition update_bandwidth := collector Bandwidth.
Definition update_latency := collector Latency.

(** Seconds passed to [time.sleep] by each collector. *)
Definition bandwidth_sleep : Z := 300.
Definition latency_sleep : Z := 5.

Fixpoint steps (n : nat) (m : Metric) (probe : ProbeResult)
  (self : NetworkMonitor) (pc : Pc) : NetworkMonitor * Pc :=
  match n with
  | O => (self, pc)
  | S n' => let '(self1, pc1) := collector m probe self pc in
            steps n' m probe self1 pc1
  end.

(** Seconds the statement at [pc] blocks from its start to its end: the
    probe for [probe_seconds], the sleep for [sleep]. *)
Definition seconds (sleep probe_seconds : Z) (pc : Pc) : Z :=
  match pc with
  | AtRun => probe_seconds
  | AtSleep => sleep
  | _ => 0
  end.

(** [thread.join()], called when the statement at [pc] has already been
    running for [elapsed] seconds: the caller waits for what is left of that
    statement and for the whole of every statement after it, until the
    thread's loop ends.  The result is the monitor the thread leaves and the
    seconds the caller waited. *)
Fixpoint join (fuel : nat) (m : Metric) (sleep : Z) (probe : ProbeResult)
  (probe_seconds elapsed : Z) (self : NetworkMonitor) (pc : Pc)
  : option (NetworkMonitor * Z) :=
  match pc with
  | Finished => Some (self, 0)
  | _ =>
      match fuel with
      | O => None
      | S fuel' =>
          let '(self1, pc1) := collector m probe self pc in
          match join fuel' m sleep probe probe_seconds 0 self1 pc1 with
          | Some (self2, t) =>
              Some (self2, seconds sleep probe_seconds pc - elapsed + t)
          | None => None
          end
      end
  end.

(** ** The running program: two collector threads and the render loop *)

Record System := {
  monitor : NetworkMonitor;
  bandwidth_thread : Pc;
  latency_thread : Pc
}.

Definition start (stdscr : Curses.window) : System :=
  {| monitor := init stdscr; bandwidth_thread := AtWhile; latency_thread := AtWhile |}.

Inductive Event :=
| RunBandwidth (probe : ProbeResult)
| RunLatency (probe : ProbeResult)
| Frame (timestamp : Py.str)
| Interrupt.

Definition sys_step (s : System) (e : Event) : System :=
  match e with
  | RunBandwidth probe =>
      let '(self1, pc1) := update_bandwidth probe (monitor s) (bandwidth_thread s) in
      {| monitor := self1; bandwidth_thread := pc1; latency_thread := latency_thread s |}
  | RunLatency probe =>
      let '(self1, pc1) := update_latency probe (monitor s) (latency_thread s) in
      {| monitor := self1; bandwidth_thread := bandwidth_thread s; latency_thread := pc1 |}
  | Frame timestamp =>
      {| monitor := final (draw_screen timestamp (monitor s));
         bandwidth_thread := bandwidth_thread s; latency_thread := latency_thread s |}
  | Interrupt =>
      {| monitor := set_running (monitor s) false;
         bandwidth_thread := bandwidth_thread s; latency_thread := latency_thread s |}
  end.

Definition run_events (s : System) (es : list Event) : System :=
  fold_left sys_step es s.

Inductive reachable : System -> Prop :=
| reach_start stdscr : reachable (start stdscr)
| reach_step s e : reachable s -> reachable (sys_step s e).

(** The [except KeyboardInterrupt] branch of [run]: clear the flag, join
    both threads; the threads run side by side, so the wait is the longer of
    the two.  [elapsed_b] and [elapsed_l] say how far into its current
    statement each thread is when the interrupt arrives. *)
Definition shutdown (fuel : nat)
  (probe_b : ProbeResult) (seconds_b elapsed_b : Z)
  (probe_l : ProbeResult) (seconds_l elapsed_l : Z)
  (s : System) : option (System * Z) :=
  let self0 := set_running (monitor s) false in
  match join fuel Bandwidth bandwidth_sleep probe_b seconds_b elapsed_b self0
             (bandwidth_thread s) with
  | None => None
  | Some (self1, tb) =>
      match join fuel Latency latency_sleep probe_l seconds_l elapsed_l self1
                 (latency_thread s) with
      | None => None
      | Some (self2, tl) =>
          Some ({| monitor := self2; bandwidth_thread := Finished;
                   latency_thread := Finished |}, Z.max tb tl)
      end
  end.

(** ** Layout predicates *)

Definition covers (r : Rect) (y x : Z) : Prop :=
  top r <= y < top r + height r /\ left r <= x < left r + width r.

Definition within (r : Rect) (H W : Z) : Prop :=
  0 <= top r /\ 0 <= left r /\ top r + height r <= H /\ left r + width r <= W.

Definition records (self : NetworkMonitor) :=
  (bandwidth_data self, latency_data self, stability_data self,
   routing_data self, protocol_data self).

(** What a draw call leaves to see: the window, the spinner index and the
    exception, if any. *)
Definition rendering {A : Type} (o : outcome A) :=
  (screen (final o), spinner_idx (final o), raised o).

(** What a reader finds in a collector's record while the collector stands
    between the probe and the sleep. *)
Definition in_flight (r : MetricRecord) (pc : Pc) : Prop :=
  match pc with
  | AtRun | AtStoreData _ => status r = Updating
  | AtStoreOk result => r = {| status := Updating; data := Some result |}
  | _ => True
  end.

(** A method that leaves the view [proj] of the monitor as it found it,
    whether it returns or raises. *)
Definition keeps {X A : Type} (proj : NetworkMonitor -> X) (m : M A) : Prop :=
  forall self, proj (final (m self)) = proj self.

(** A method that raises nothing but [curses.error]. *)
Definition only_curses {A : Type} (m : M A) : Prop :=
  forall self e, raised (m self) = Some e -> e = curses_error.

(** A method that only adds cells to the window. *)
Definition grows {A : Type} (m : M A) : Prop :=
  forall self, exists new,
    Curses.cells (screen (final (m self))) = new ++ Curses.cells (screen self).

Ltac run_method :=
  cbv beta delta [bind load addstr_at addstr addch on_screen get_spinner ret
                  clear refresh getmaxyx];
  cbn beta iota delta
    [screen spinner_idx bandwidth_data latency_data stability_data routing_data
     protocol_data running final raised get_record set_record set_screen
     set_spinner_idx set_running status data fst snd Py.truthy].

(** [n] calls of [get_spinner] in a row, with the glyphs they return. *)
Fixpoint spin (n : nat) : M (list Py.str) :=
  match n with
  | O => ret []
  | S n' => c <- get_spinner ;; cs <- spin n' ;; ret (c :: cs)
  end.

(** A method that keeps the property [P] of the monitor, whether it returns
    or raises. *)
Definition maintains {A : Type} (P : NetworkMonitor -> Prop) (m : M A) : Prop :=
  forall self, P self -> P (final (m self)).

Definition spinner_in_range (self : NetworkMonitor) : Prop :=
  0 <= spinner_idx self < 10.

Definition outcome_map {A : Type} (g : NetworkMonitor -> NetworkMonitor)
  (o : outcome A) : outcome A :=
  match o with
  | Return a self => Return a (g self)
  | Raise e self => Raise e (g self)
  end.

(** A method that does the same whether the change [g] is made to the
    monitor before it runs or after. *)
Definition commutes {A : Type} (g : NetworkMonitor -> NetworkMonitor) (m : M A)
  : Prop :=
  forall self, m (g self) = outcome_map g (m self).

(** 1 when the record of [m] reads [Updating...], 0 otherwise. *)
Definition updating (self : NetworkMonitor) (m : Metric) : Z :=
  if Py.str_eqb (status (get_record self m)) Updating then 1 else 0.

(** The steps of one collector thread, one probe result per step. *)
Definition run_collector (m : Metric) (probes : list ProbeResult)
  (self : NetworkMonitor) (pc : Pc) : NetworkMonitor * Pc :=
  fold_left (fun st probe => collector m probe (fst st) (snd st)) probes (self, pc).

(** The shape of a record: [OK] only over some data, and no data while
    the status is still the initial one. *)
Definition well_formed (r : MetricRecord) : Prop :=
  (status r = Ok -> data r <> None) /\
  (status r = Initializing -> data r = None).

(** Text the window model is exact for: printable ASCII, each character
    one cell.  A TAB, a newline or a wide character is not of this kind:
    curses gives it several cells. *)
Definition printable (line : Py.str) : bool :=
  forallb (fun c => (32 <=? c)%N && (c <=? 126)%N) line.

(** ** Auxiliary facts *)

Lemma str_eqb_eq (a b : Py.str) : Py.str_eqb a b = true <-> a = b.
Proof.
  revert b; induction a as [|c a IH]; intros [|d b]; simpl; split;
    try congruence; try reflexivity.
  - intros H. apply andb_true_iff in H as [H1 H2].
    apply N.eqb_eq in H1. apply IH in H2. congruence.
  - intros H. injection H as -> ->. apply andb_true_iff. split.
    + apply N.eqb_refl.
    + now apply IH.
Qed.

Lemma str_eqb_neq (a b : Py.str) : Py.str_eqb a b = false <-> a <> b.
Proof.
  split.
  - intros H E. apply str_eqb_eq in E. congruence.
  - intros H. destruct (Py.str_eqb a b) eqn:E; [|reflexivity].
    apply str_eqb_eq in E. contradiction.
Qed.

(** What a method leaves alone: [proj] is any view of the monitor that the
    screen does not carry. *)
Section Frame.

Context {X : Type} (proj : NetworkMonitor -> X).
Hypothesis proj_screen : forall self w, proj (set_screen self w) = proj self.

Lemma keeps_ret {A : Type} (a : A) : keeps proj (ret a).
Proof. intros self. reflexivity. Qed.

Lemma final_bind {A B : Type} (m : M A) (f : A -> M B) self :
  (forall a, keeps proj (f a)) ->
  proj (final (bind m f self)) = proj (final (m self)).
Proof.
  intros Hf. unfold bind. destruct (m self) as [a s1|e s1]; simpl.
  - apply Hf.
  - reflexivity.
Qed.

Lemma keeps_bind {A B : Type} (m : M A) (f : A -> M B) :
  keeps proj m -> (forall a, keeps proj (f a)) -> keeps proj (bind m f).
Proof.
  intros Hm Hf self. rewrite final_bind by assumption. apply Hm.
Qed.

Lemma keeps_for {A : Type} (l : list A) (body : A -> M unit) :
  (forall a, keeps proj (body a)) -> keeps proj (for_ l body).
Proof.
  intros Hb. induction l as [|a l IH]; simpl.
  - apply keeps_ret.
  - apply keeps_bind; [apply Hb | intros _; exact IH].
Qed.

Lemma keeps_on_screen f : keeps proj (on_screen f).
Proof.
  intros self. unfold on_screen.
  destruct (f (screen self)) as [w [|]]; simpl; apply proj_screen.
Qed.

Lemma keeps_load m : keeps proj (load m).
Proof. intros self. reflexivity. Qed.

Lemma keeps_getmaxyx : keeps proj getmaxyx.
Proof. intros self. reflexivity. Qed.

Lemma keeps_draw_lines ls y x h w : keeps proj (draw_lines ls y x h w).
Proof.
  apply keeps_for. intros [i line].
  destruct (y + i + 1 <? h); [apply keeps_on_screen | apply keeps_ret].
Qed.

Lemma keeps_draw_borders : keeps proj draw_borders.
Proof.
  unfold draw_borders.
  apply keeps_bind; [apply keeps_getmaxyx|]. intros [max_y max_x].
  apply keeps_bind; [apply keeps_for; intros; apply keeps_on_screen|]. intros _.
  apply keeps_bind; [apply keeps_for; intros; apply keeps_on_screen|]. intros _.
  apply keeps_on_screen.
Qed.

(** The part of [draw_panel] that follows the choice of the spinner. *)
Lemma keeps_panel_rest t m y x h w (sp : Py.str) :
  keeps proj (r2 <- load m ;;
         addstr_at y x (Py.lit "=== " ++ t ++ Py.lit " === ") BLUE ;;
         addstr sp YELLOW ;;
         r3 <- load m ;;
         addstr (Py.lit "[" ++ status r3 ++ Py.lit "]") (status_color (status r2)) ;;
         r4 <- load m ;;
         if Py.truthy (data r4)
         then
           r5 <- load m ;;
           draw_lines
             (Py.enumerate
                (Py.slice_to (Py.split Py.newline (Py.str_of (data r5))) (h - 2)))
             y x h w
         else ret tt).
Proof.
  apply keeps_bind; [apply keeps_load|]. intros r2.
  apply keeps_bind; [apply keeps_on_screen|]. intros _.
  apply keeps_bind; [apply keeps_on_screen|]. intros _.
  apply keeps_bind; [apply keeps_load|]. intros r3.
  apply keeps_bind; [apply keeps_on_screen|]. intros _.
  apply keeps_bind; [apply keeps_load|]. intros r4.
  destruct (Py.truthy (data r4)); [|apply keeps_ret].
  apply keeps_bind; [apply keeps_load|]. intros r5.
  apply keeps_draw_lines.
Qed.

End Frame.

Lemma keeps_records_get_spinner : keeps records get_spinner.
Proof.
  intros self. unfold get_spinner.
  destruct (Py.index spinner (spinner_idx self)); reflexivity.
Qed.

Lemma keeps_records_draw_panel t m y x h w :
  keeps records (draw_panel t m y x h w).
Proof.
  unfold draw_panel.
  apply keeps_bind; [apply keeps_load |]. intros r1.
  apply keeps_bind; [| intros sp; apply keeps_panel_rest; reflexivity].
  destruct (Py.str_eqb (status r1) Updating);
    [apply keeps_records_get_spinner | apply keeps_ret].
Qed.

Lemma keeps_records_draw_screen ts : keeps records (draw_screen ts).
Proof.
  unfold draw_screen, clear, refresh.
  apply keeps_bind; [apply keeps_on_screen; reflexivity |]. intros _.
  apply keeps_bind; [apply keeps_getmaxyx |]. intros [max_y max_x].
  apply keeps_bind; [apply keeps_draw_borders; reflexivity |]. intros _.
  apply keeps_bind; [apply keeps_on_screen; reflexivity |]. intros _.
  apply keeps_bind.
  - apply keeps_for. intros [[t m] r]. apply keeps_records_draw_panel.
  - intros _. apply keeps_bind; [apply keeps_on_screen; reflexivity |].
    intros _. apply keeps_ret.
Qed.

Lemma index_spinner_in_range (i : Z) :
  0 <= i < 10 -> exists char, Py.index spinner i = Some char.
Proof.
  intros Hi. unfold Py.index.
  replace (0 <=? i) with true by (symmetry; apply Z.leb_le; lia).
  destruct (nth_error spinner (Z.to_nat i)) as [char|] eqn:E.
  - now exists char.
  - apply nth_error_None in E. simpl in E. lia.
Qed.

(** ** Layout *)

(** C5: on a terminal of at least 4 rows and 4 columns the four panel
    rectangles of [draw_screen], placed around the midpoint row [H / 2] and
    column [W / 2], are non-empty, pairwise disjoint and inside the
    terminal. *)
Theorem panels_disjoint_and_within (H W : Z) :
  4 <= H -> 4 <= W ->
  let rs := map snd (panels H W) in
  List.length rs = 4%nat /\
  (forall i j r s, i <> j -> nth_error rs i = Some r -> nth_error rs j = Some s ->
     forall y x, ~ (covers r y x /\ covers s y x)) /\
  (forall r, In r rs -> within r H W /\ 1 <= height r /\ 1 <= width r).
Proof.
  intros HH HW rs.
  pose proof (Z.mul_div_le H 2 ltac:(lia)) as Hy.
  pose proof (Z.mul_div_le W 2 ltac:(lia)) as Hx.
  pose proof (Z.div_le_lower_bound H 2 2 ltac:(lia) ltac:(lia)) as Hy2.
  pose proof (Z.div_le_lower_bound W 2 2 ltac:(lia) ltac:(lia)) as Hx2.
  subst rs. unfold panels. simpl map.
  set (mid_y := H / 2) in *. set (mid_x := W / 2) in *.
  split; [reflexivity|]. split.
  - intros i j r s Hij Hi Hj y x [Hr Hs].
    unfold covers in Hr, Hs.
    destruct i as [|[|[|[|i]]]]; simpl in Hi; try (destruct i; discriminate);
      injection Hi as <-;
      (destruct j as [|[|[|[|j]]]]; simpl in Hj; try (destruct j; discriminate);
       injection Hj as <-; cbn [top left height width] in Hr, Hs;
       try lia; try congruence).
  - intros r [<-|[<-|[<-|[<-|[]]]]]; unfold within;
      cbn [top left height width]; lia.
Qed.

Lemma panels_disjoint_and_within_witness :
  let rs := map snd (panels 24 80) in
  List.length rs = 4%nat /\
  (forall i j r s, i <> j -> nth_error rs i = Some r -> nth_error rs j = Some s ->
     forall y x, ~ (covers r y x /\ covers s y x)) /\
  (forall r, In r rs -> within r 24 80 /\ 1 <= height r /\ 1 <= width r).
Proof. apply (panels_disjoint_and_within 24 80); lia. Defined.

(** ** Collectors *)

(** C6: a probe cycle whose invocation raises ends at the sleep with the
    record's status set to the error text built from the exception and the
    record's data as it was before the cycle. *)
Theorem failed_probe_keeps_data (m : Metric) (e : Py.str) (self : NetworkMonitor) :
  running self = true ->
  snd (steps 4 m (Failed e) self AtWhile) = AtSleep /\
  status (get_record (fst (steps 4 m (Failed e) self AtWhile)) m)
    = Py.lit "Error: " ++ e /\
  data (get_record (fst (steps 4 m (Failed e) self AtWhile)) m)
    = data (get_record self m).
Proof.
  intros Hrun. simpl. rewrite Hrun. simpl.
  destruct m; repeat split.
Qed.

Lemma failed_probe_keeps_data_witness :
  let self := store_data (init (Curses.newwin 24 80)) Latency (Some (Py.lit "3 packets")) in
  let e := Py.lit "No such file or directory: 'ping'" in
  snd (steps 4 Latency (Failed e) self AtWhile) = AtSleep /\
  status (get_record (fst (steps 4 Latency (Failed e) self AtWhile)) Latency)
    = Py.lit "Error: " ++ e /\
  data (get_record (fst (steps 4 Latency (Failed e) self AtWhile)) Latency)
    = Some (Py.lit "3 packets").
Proof.
  apply (failed_probe_keeps_data Latency
           (Py.lit "No such file or directory: 'ping'")
           (store_data (init (Curses.newwin 24 80)) Latency (Some (Py.lit "3 packets")))).
  reflexivity.
Defined.

(** C9: a step of [update_bandwidth] leaves the four other records as they
    were, a step of [update_latency] likewise, and [draw_borders],
    [draw_panel] and [draw_screen] leave all five records as they were,
    whether they return or raise. *)
Theorem collectors_own_one_record_renderer_none :
  (forall probe self pc,
     let self' := fst (update_bandwidth probe self pc) in
     latency_data self' = latency_data self /\
     stability_data self' = stability_data self /\
     routing_data self' = routing_data self /\
     protocol_data self' = protocol_data self) /\
  (forall probe self pc,
     let self' := fst (update_latency probe self pc) in
     bandwidth_data self' = bandwidth_data self /\
     stability_data self' = stability_data self /\
     routing_data self' = routing_data self /\
     protocol_data self' = protocol_data self) /\
  (forall self, records (final (draw_borders self)) = records self) /\
  (forall t m y x h w self,
     records (final (draw_panel t m y x h w self)) = records self) /\
  (forall ts self, records (final (draw_screen ts self)) = records self).
Proof.
  split; [|split; [|split; [|split]]].
  - intros probe self pc.
    destruct pc; simpl; try destruct (running self); try destruct probe;
      simpl; repeat split.
  - intros probe self pc.
    destruct pc; simpl; try destruct (running self); try destruct probe;
      simpl; repeat split.
  - apply keeps_draw_borders. reflexivity.
  - intros. apply keeps_records_draw_panel.
  - intros. apply keeps_records_draw_screen.
Qed.

(** ** Spinner *)

(** C7: with the index inside the ten frames, a [draw_panel] call moves the
    spinner index to the next one modulo 10 when the status it reads is
    [Updating...], and leaves it where it was for every other status. *)
Theorem spinner_advances_only_when_updating
  (t : Py.str) (m : Metric) (y x h w : Z) (self : NetworkMonitor) :
  0 <= spinner_idx self < 10 ->
  Py.len spinner = 10 /\
  (status (get_record self m) = Updating ->
   spinner_idx (final (draw_panel t m y x h w self)) = (spinner_idx self + 1) mod 10) /\
  (status (get_record self m) <> Updating ->
   spinner_idx (final (draw_panel t m y x h w self)) = spinner_idx self).
Proof.
  intros Hi. split; [reflexivity|].
  assert (E : spinner_idx (final (draw_panel t m y x h w self)) =
              spinner_idx (final ((if Py.str_eqb (status (get_record self m)) Updating
                                   then get_spinner else ret (Py.lit " ")) self))).
  { unfold draw_panel. unfold bind at 1. unfold load at 1.
    apply (final_bind spinner_idx). intros sp.
    apply keeps_panel_rest. reflexivity. }
  rewrite E. split; intros Hs.
  - apply str_eqb_eq in Hs. rewrite Hs. unfold get_spinner.
    destruct (index_spinner_in_range _ Hi) as [char ->]. reflexivity.
  - apply str_eqb_neq in Hs. rewrite Hs. reflexivity.
Qed.

Lemma spinner_advances_only_when_updating_witness :
  let self := store_status (set_spinner_idx (init (Curses.newwin 24 80)) 9)
                Bandwidth Updating in
  let idle := set_spinner_idx (init (Curses.newwin 24 80)) 9 in
  spinner_idx (final (draw_panel (Py.lit "Bandwidth") Bandwidth 2 1 11 39 self)) = 0 /\
  spinner_idx (final (draw_panel (Py.lit "Bandwidth") Bandwidth 2 1 11 39 idle)) = 9.
Proof.
  split.
  - apply (spinner_advances_only_when_updating (Py.lit "Bandwidth") Bandwidth 2 1 11 39
             (store_status (set_spinner_idx (init (Curses.newwin 24 80)) 9)
                Bandwidth Updating)).
    + simpl. lia.
    + reflexivity.
  - apply (spinner_advances_only_when_updating (Py.lit "Bandwidth") Bandwidth 2 1 11 39
             (set_spinner_idx (init (Curses.newwin 24 80)) 9)).
    + simpl. lia.
    + discriminate.
Defined.

(** ** Panel renderer *)

(** C10: a record whose data is the empty string is rendered exactly as the
    same record with no data: same window, same spinner index, same
    exception if any; the body loop is not entered. *)
Theorem empty_data_rendered_as_absent
  (t : Py.str) (m : Metric) (y x h w : Z) (self : NetworkMonitor) (st : Py.str) :
  rendering (draw_panel t m y x h w
               (set_record self m {| status := st; data := Some [] |}))
  = rendering (draw_panel t m y x h w
                 (set_record self m {| status := st; data := None |})).
Proof.
  unfold rendering, draw_panel.
  destruct m; run_method.
  all: destruct (Py.str_eqb st Updating); run_method.
  all: try destruct (Py.index spinner (spinner_idx self)); run_method;
    try reflexivity.
  all: destruct (Curses.mvwaddstr _ _ _ _ _) as [w1 [|]]; run_method;
    try reflexivity.
  all: destruct (Curses.waddstr w1 _ _) as [w2 [|]]; run_method; try reflexivity.
  all: destruct (Curses.waddstr w2 _ _) as [w3 [|]]; run_method; try reflexivity.
Qed.

Lemma wmove_cells w y x :
  Curses.cells (fst (Curses.wmove w y x)) = Curses.cells w.
Proof. unfold Curses.wmove. destruct (Curses.inside w y x); reflexivity. Qed.

Lemma waddstr_cells (s : Py.str) :
  forall w a w' r, Curses.waddstr w s a = (w', r) ->
  exists new,
    Curses.cells w' = new ++ Curses.cells w /\
    Forall (fun c => Curses.how c = a) new /\
    (r = Curses.OK -> map Curses.what new = rev (map Curses.Char s)).
Proof.
  induction s as [|c s IH]; intros w a w' r H; simpl in H.
  - injection H as <- <-. exists []. repeat split. constructor.
  - destruct (Curses.waddch w (Curses.Char c) a) as [w1 r1] eqn:E1.
    assert (C1 : Curses.cells w1 =
                 {| Curses.row := Curses.cur_y w; Curses.col := Curses.cur_x w;
                    Curses.what := Curses.Char c; Curses.how := a |}
                 :: Curses.cells w).
    { unfold Curses.waddch in E1.
      destruct (Curses.cur_x w + 1 <? Curses.max_x w);
        [|destruct (Curses.cur_y w + 1 <? Curses.max_y w)];
        injection E1 as <- _; reflexivity. }
    destruct r1.
    + destruct (IH _ _ _ _ H) as (new & Hc & Ha & Hw).
      exists (new ++ [{| Curses.row := Curses.cur_y w; Curses.col := Curses.cur_x w;
                         Curses.what := Curses.Char c; Curses.how := a |}]).
      split; [|split].
      * rewrite Hc, C1, <- app_assoc. reflexivity.
      * apply Forall_app. split; [exact Ha|]. repeat constructor.
      * intros Hr. rewrite map_app, (Hw Hr). reflexivity.
    + injection H as <- <-.
      exists [{| Curses.row := Curses.cur_y w; Curses.col := Curses.cur_x w;
                 Curses.what := Curses.Char c; Curses.how := a |}].
      split; [exact C1|]. split; [repeat constructor | discriminate].
Qed.

Lemma grows_ret {A : Type} (a : A) : grows (ret a).
Proof. intros self. now exists []. Qed.

Lemma grows_bind {A B : Type} (m : M A) (f : A -> M B) :
  grows m -> (forall a, grows (f a)) -> grows (bind m f).
Proof.
  intros Hm Hf self. unfold bind. specialize (Hm self).
  destruct (m self) as [a s1|e s1]; simpl in *.
  - destruct Hm as [n1 H1]. destruct (Hf a s1) as [n2 H2].
    exists (n2 ++ n1). rewrite H2, H1, app_assoc. reflexivity.
  - exact Hm.
Qed.

Lemma grows_for {A : Type} (l : list A) (body : A -> M unit) :
  (forall a, grows (body a)) -> grows (for_ l body).
Proof.
  intros Hb. induction l as [|a l IH]; simpl.
  - apply grows_ret.
  - apply grows_bind; [apply Hb | intros _; exact IH].
Qed.

Lemma grows_addstr_at y x s a : grows (addstr_at y x s a).
Proof.
  intros self. unfold addstr_at, on_screen, Curses.mvwaddstr.
  pose proof (wmove_cells (screen self) y x) as Hm.
  destruct (Curses.wmove (screen self) y x) as [w1 [|]]; simpl in Hm.
  - destruct (Curses.waddstr w1 s a) as [w2 r] eqn:E.
    destruct (waddstr_cells _ _ _ _ _ E) as (new & Hc & _).
    exists new. rewrite <- Hm, <- Hc. destruct r; reflexivity.
  - exists []. simpl. exact Hm.
Qed.

Lemma grows_draw_lines ls y x h w : grows (draw_lines ls y x h w).
Proof.
  apply grows_for. intros [i line].
  destruct (y + i + 1 <? h); [apply grows_addstr_at | apply grows_ret].
Qed.

Lemma status_color_cases (st : Py.str) :
  (st = Ok -> status_color st = GREEN) /\ (st <> Ok -> status_color st = RED).
Proof.
  unfold status_color. split; intros H.
  - apply str_eqb_eq in H. now rewrite H.
  - apply str_eqb_neq in H. now rewrite H.
Qed.

Lemma tag_cells (st : Py.str) w2 w3 (cs : list Curses.cell) :
  Curses.waddstr w2 (Py.lit "[" ++ st ++ Py.lit "]") (status_color st)
    = (w3, Curses.OK) ->
  (exists newer, cs = newer ++ Curses.cells w3) ->
  exists newer tag older,
    cs = newer ++ tag ++ older /\
    map Curses.what tag = rev (map Curses.Char (Py.lit "[" ++ st ++ Py.lit "]")) /\
    (st = Ok -> Forall (fun c => Curses.how c = GREEN) tag) /\
    (st <> Ok -> Forall (fun c => Curses.how c = RED) tag).
Proof.
  intros E [newer Hcs].
  destruct (waddstr_cells _ _ _ _ _ E) as (tag & Hc & Ha & Hw).
  exists newer, tag, (Curses.cells w2).
  destruct (status_color_cases st) as [Hg Hr].
  split; [now rewrite Hcs, Hc|]. split; [now apply Hw|].
  split; intros H; [rewrite <- (Hg H) | rewrite <- (Hr H)]; exact Ha.
Qed.

(** C8 (as the code has it): when [draw_panel] returns, the window holds the
    bracketed status text, every cell of it in green when the status is [OK]
    and in red for every other status, [Initializing...] included; the two
    attributes differ. *)
Theorem status_tag_green_iff_ok
  (t : Py.str) (m : Metric) (y x h w : Z) (self : NetworkMonitor) :
  raised (draw_panel t m y x h w self) = None ->
  GREEN <> RED /\
  exists newer tag older,
    Curses.cells (screen (final (draw_panel t m y x h w self)))
      = newer ++ tag ++ older /\
    map Curses.what tag
      = rev (map Curses.Char
               (Py.lit "[" ++ status (get_record self m) ++ Py.lit "]")) /\
    (status (get_record self m) = Ok ->
     Forall (fun c => Curses.how c = GREEN) tag) /\
    (status (get_record self m) <> Ok ->
     Forall (fun c => Curses.how c = RED) tag).
Proof.
  intros Hret. split; [discriminate|]. revert Hret.
  unfold draw_panel.
  destruct m; run_method.
  all: match goal with
       | |- context [Py.str_eqb ?s Updating] => destruct (Py.str_eqb s Updating)
       end; run_method.
  all: try (destruct (Py.index spinner (spinner_idx self)); run_method;
            [|discriminate]).
  all: destruct (Curses.mvwaddstr _ _ _ _ _) as [w1 [|]]; run_method;
    [|discriminate].
  all: destruct (Curses.waddstr w1 _ _) as [w2 [|]]; run_method; [|discriminate].
  all: destruct (Curses.waddstr w2 _ _) as [w3 [|]] eqn:E3; run_method;
    [|discriminate].
  all: intros _; eapply tag_cells; [exact E3|].
  all: match goal with
       | |- context [if ?b then _ else _] => destruct b
       end; run_method.
  all: try (exists []; reflexivity).
  all: match goal with
       | |- context [draw_lines ?ls ?y ?x ?h ?w ?s] =>
           destruct (grows_draw_lines ls y x h w s) as [new Hn];
           exists new; exact Hn
       end.
Qed.

Lemma status_tag_green_iff_ok_witness :
  let self := store_status (init (Curses.newwin 24 80)) Latency Ok in
  GREEN <> RED /\
  exists newer tag older,
    Curses.cells (screen (final (draw_panel (Py.lit "Latency") Latency 2 41 11 39 self)))
      = newer ++ tag ++ older /\
    map Curses.what tag
      = rev (map Curses.Char
               (Py.lit "[" ++ status (get_record self Latency) ++ Py.lit "]")) /\
    (status (get_record self Latency) = Ok ->
     Forall (fun c => Curses.how c = GREEN) tag) /\
    (status (get_record self Latency) <> Ok ->
     Forall (fun c => Curses.how c = RED) tag).
Proof.
  apply (status_tag_green_iff_ok (Py.lit "Latency") Latency 2 41 11 39
           (store_status (init (Curses.newwin 24 80)) Latency Ok)).
  vm_compute. reflexivity.
Defined.

(** C8 fails as stated: the record every panel starts with has status
    [Initializing...], and its tag is drawn in red, the attribute of an
    error, not in the green of [OK]. *)
Lemma initializing_tag_is_red :
  let self := init (Curses.newwin 24 80) in
  let o := draw_panel (Py.lit "Bandwidth") Bandwidth 2 1 11 39 self in
  status (get_record self Bandwidth) = Py.lit "Initializing..." /\
  raised o = None /\
  map (fun c => (Curses.row c, Curses.col c, Curses.what c, Curses.how c))
      (firstn 3 (rev (firstn 17 (Curses.cells (screen (final o))))))
    = [(2, 20, Curses.Char 91, RED); (2, 21, Curses.Char 73, RED);
       (2, 22, Curses.Char 110, RED)] /\
  Forall (fun c => Curses.how c = RED) (firstn 17 (Curses.cells (screen (final o)))) /\
  status_color (Py.lit "Initializing...") <> status_color Ok /\
  status_color (Py.lit "Initializing...") = status_color (Error (Py.lit "timeout")).
Proof.
  vm_compute. repeat split; try discriminate.
  repeat constructor.
Qed.

(** ** Bounds *)

Lemma only_curses_ret {A : Type} (a : A) : only_curses (ret a).
Proof. intros self e H. discriminate. Qed.

Lemma only_curses_bind {A B : Type} (m : M A) (f : A -> M B) :
  only_curses m -> (forall a, only_curses (f a)) -> only_curses (bind m f).
Proof.
  intros Hm Hf self e. unfold bind. specialize (Hm self e).
  destruct (m self) as [a s1|e1 s1]; simpl in *.
  - apply Hf.
  - exact Hm.
Qed.

Lemma only_curses_for {A : Type} (l : list A) (body : A -> M unit) :
  (forall a, only_curses (body a)) -> only_curses (for_ l body).
Proof.
  intros Hb. induction l as [|a l IH]; simpl.
  - apply only_curses_ret.
  - apply only_curses_bind; [apply Hb | intros _; exact IH].
Qed.

Lemma only_curses_on_screen f : only_curses (on_screen f).
Proof.
  intros self e. unfold on_screen.
  destruct (f (screen self)) as [w [|]]; simpl; congruence.
Qed.

Lemma only_curses_draw_borders : only_curses draw_borders.
Proof.
  unfold draw_borders.
  apply only_curses_bind; [intros self e H; discriminate|]. intros [max_y max_x].
  apply only_curses_bind; [apply only_curses_for; intros; apply only_curses_on_screen|].
  intros _.
  apply only_curses_bind; [apply only_curses_for; intros; apply only_curses_on_screen|].
  intros _. apply only_curses_on_screen.
Qed.

Lemma mvwaddstr_outside w y x s a :
  Curses.inside w y x = false -> Curses.mvwaddstr w y x s a = (w, Curses.ERR).
Proof. intros H. unfold Curses.mvwaddstr, Curses.wmove. now rewrite H. Qed.

Lemma inside_negative_column w y x : x < 0 -> Curses.inside w y x = false.
Proof.
  intros H. unfold Curses.inside.
  replace (0 <=? x) with false by (symmetry; apply Z.leb_gt; lia).
  destruct (0 <=? y), (y <? Curses.max_y w); reflexivity.
Qed.

(** C2 (as the code has it): drawing is handed to curses unclipped, and a
    position outside the window raises [curses.error] instead of being
    skipped.  [draw_panel] raises and draws nothing whenever its position
    [(y, x)] is outside the window; [draw_screen] raises on every terminal
    narrower than its 27-character title.  The one guard is on the body
    lines of a panel: line [i] is skipped when [y + i + 1 < height] fails. *)
Theorem out_of_window_raises_only_body_rows_guarded :
  (forall t m y x h w self,
     0 <= spinner_idx self < 10 ->
     Curses.inside (screen self) y x = false ->
     raised (draw_panel t m y x h w self) = Some curses_error /\
     Curses.cells (screen (final (draw_panel t m y x h w self)))
       = Curses.cells (screen self)) /\
  (forall ts self,
     Curses.max_x (screen self) < 27 ->
     raised (draw_screen ts self) = Some curses_error) /\
  (forall ls y x h w self,
     (forall i line, In (i, line) ls -> h <= y + i + 1) ->
     draw_lines ls y x h w self = Return tt self).
Proof.
  split; [|split].
  - intros t m y x h w self Hi Hout.
    destruct (index_spinner_in_range _ Hi) as [char Hc].
    unfold draw_panel.
    destruct m; run_method.
    all: match goal with
         | |- context [Py.str_eqb ?s Updating] => destruct (Py.str_eqb s Updating)
         end; run_method.
    all: try rewrite Hc; run_method.
    all: rewrite (mvwaddstr_outside _ _ _ _ _ Hout); run_method.
    all: split; reflexivity.
  - intros ts self Hx.
    unfold draw_screen. run_method.
    destruct (draw_borders _) as [[] s1|e s1] eqn:E.
    + rewrite mvwaddstr_outside; [reflexivity|].
      apply inside_negative_column.
      change (Curses.max_x (Curses.wclear (screen self))) with (Curses.max_x (screen self)).
      change (Py.len title) with 27.
      apply Z.div_lt_upper_bound; lia.
    + simpl. f_equal.
      apply (only_curses_draw_borders
               (set_screen self (Curses.wclear (screen self))) e).
      rewrite E. reflexivity.
  - intros ls y x h w self. unfold draw_lines.
    induction ls as [|[i line] ls IH]; intros Hg; simpl.
    + reflexivity.
    + unfold bind.
      replace (y + i + 1 <? h) with false
        by (symmetry; apply Z.ltb_ge; apply (Hg i line); now left).
      unfold ret at 1. apply IH. intros j l Hin. apply (Hg j l). now right.
Qed.

Lemma out_of_window_raises_only_body_rows_guarded_witness :
  (raised (draw_panel (Py.lit "Bandwidth") Bandwidth 2 1 0 0 (init (Curses.newwin 2 2)))
     = Some curses_error /\
   Curses.cells (screen (final (draw_panel (Py.lit "Bandwidth") Bandwidth 2 1 0 0
                                  (init (Curses.newwin 2 2)))))
     = []) /\
  raised (draw_screen (Py.lit "2026-01-01 00:00:00") (init (Curses.newwin 24 26)))
    = Some curses_error /\
  draw_lines [(0, Py.lit "a")] 7 1 5 39 (init (Curses.newwin 12 80))
    = Return tt (init (Curses.newwin 12 80)).
Proof.
  destruct out_of_window_raises_only_body_rows_guarded as (H1 & H2 & H3).
  split; [|split].
  - apply (H1 (Py.lit "Bandwidth") Bandwidth 2 1 0 0 (init (Curses.newwin 2 2))).
    + simpl. lia.
    + reflexivity.
  - apply (H2 (Py.lit "2026-01-01 00:00:00") (init (Curses.newwin 24 26))).
    simpl. lia.
  - apply (H3 [(0, Py.lit "a")] 7 1 5 39 (init (Curses.newwin 12 80))).
    intros i line [E|[]]. injection E as <- _. lia.
Defined.

(** C2 fails as stated: on a 3 x 3 terminal [draw_screen] raises
    [curses.error], as does the first panel on a 2 x 2 terminal, whose row 2
    does not exist; and on a 24 x 40 terminal the header of the bandwidth
    panel, 36 cells long, is written in full although the panel is 19 wide:
    the cell at column 36 is outside the panel's rectangle. *)
Lemma degenerate_terminal_raises_and_header_overruns :
  raised (draw_screen (Py.lit "2026-01-01 00:00:00") (init (Curses.newwin 3 3)))
    = Some curses_error /\
  raised (draw_panel (Py.lit "Bandwidth") Bandwidth 2 1 0 0 (init (Curses.newwin 2 2)))
    = Some curses_error /\
  nth_error (panels 24 40) 0
    = Some (Py.lit "Bandwidth", Bandwidth,
            {| top := 2; left := 1; height := 11; width := 19 |}) /\
  In {| Curses.row := 2; Curses.col := 36; Curses.what := Curses.Char 93;
        Curses.how := RED |}
     (Curses.cells (screen (final (draw_panel (Py.lit "Bandwidth") Bandwidth 2 1 11 19
                                     (init (Curses.newwin 24 40)))))) /\
  ~ covers {| top := 2; left := 1; height := 11; width := 19 |} 2 36.
Proof.
  split; [vm_compute; reflexivity|].
  split; [vm_compute; reflexivity|].
  split; [vm_compute; reflexivity|].
  split.
  - vm_compute. left. reflexivity.
  - unfold covers. simpl. lia.
Qed.

(** C4, evaluated where it fails.  On a 12 x 80 terminal [draw_screen] draws
    the bandwidth panel at row 2 with height 5, so [height - 2] is 3 and the
    three lines of the probe output fit the slice; the row test
    [y + i + 1 < height] compares the screen row with the panel height and
    lets only two of them through: the third line, on row 5, is not drawn.
    In the lower panels, where [y] exceeds [height], no line passes. *)
Theorem body_lines_lost_to_row_test :
  let out := Py.lit "Ping: 20 ms" ++ [Py.newline] ++ Py.lit "Download: 50 Mbit/s"
             ++ [Py.newline] ++ Py.lit "Upload: 10 Mbit/s" ++ [Py.newline] in
  let self := set_record
                (set_record (init (Curses.newwin 12 80)) Bandwidth
                   {| status := Ok; data := Some out |})
                Stability {| status := Ok; data := Some out |} in
  let upper := draw_panel (Py.lit "Bandwidth") Bandwidth 2 1 5 39 self in
  let lower := draw_panel (Py.lit "Stability") Stability 7 1 5 39 self in
  map snd (panels 12 80)
    = [ {| top := 2; left := 1; height := 5; width := 39 |};
        {| top := 2; left := 41; height := 5; width := 39 |};
        {| top := 7; left := 1; height := 5; width := 39 |};
        {| top := 7; left := 41; height := 5; width := 39 |} ] /\
  List.length (Py.slice_to (Py.split Py.newline out) (5 - 2)) = 3%nat /\
  raised upper = None /\
  map snd (Curses.on_row (screen (final upper)) 3)
    = map Curses.Char (Py.lit "Ping: 20 ms") /\
  map snd (Curses.on_row (screen (final upper)) 4)
    = map Curses.Char (Py.lit "Download: 50 Mbit/s") /\
  Curses.on_row (screen (final upper)) 5 = [] /\
  raised lower = None /\
  map snd (Curses.on_row (screen (final lower)) 7)
    = map Curses.Char (Py.lit "=== Stability ===  [OK]") /\
  Curses.on_row (screen (final lower)) 8 = [] /\
  Curses.on_row (screen (final lower)) 9 = [] /\
  Curses.on_row (screen (final lower)) 10 = [].
Proof. vm_compute. repeat split. Qed.

(** ** Records under concurrent collectors *)

Lemma in_flight_bandwidth_step probe self pc :
  in_flight (bandwidth_data self) pc ->
  in_flight (bandwidth_data (fst (update_bandwidth probe self pc)))
            (snd (update_bandwidth probe self pc)).
Proof.
  destruct pc; simpl; intros H;
    try destruct (running self); try destruct probe; simpl; try exact I;
    try reflexivity; try exact H; try (now rewrite H).
Qed.

Lemma in_flight_latency_step probe self pc :
  in_flight (latency_data self) pc ->
  in_flight (latency_data (fst (update_latency probe self pc)))
            (snd (update_latency probe self pc)).
Proof.
  destruct pc; simpl; intros H;
    try destruct (running self); try destruct probe; simpl; try exact I;
    try reflexivity; try exact H; try (now rewrite H).
Qed.

Lemma other_record_bandwidth_step probe self pc :
  latency_data (fst (update_bandwidth probe self pc)) = latency_data self.
Proof.
  destruct pc; simpl; try destruct (running self); try destruct probe; reflexivity.
Qed.

Lemma other_record_latency_step probe self pc :
  bandwidth_data (fst (update_latency probe self pc)) = bandwidth_data self.
Proof.
  destruct pc; simpl; try destruct (running self); try destruct probe; reflexivity.
Qed.

Lemma reachable_in_flight s :
  reachable s ->
  in_flight (bandwidth_data (monitor s)) (bandwidth_thread s) /\
  in_flight (latency_data (monitor s)) (latency_thread s).
Proof.
  induction 1 as [stdscr | s e _ [IHb IHl]].
  - split; exact I.
  - destruct e as [probe | probe | ts | ]; unfold sys_step.
    + pose proof (in_flight_bandwidth_step probe _ _ IHb) as Hb.
      pose proof (other_record_bandwidth_step probe (monitor s) (bandwidth_thread s)) as Ho.
      destruct (update_bandwidth probe (monitor s) (bandwidth_thread s)) as [s1 pc1].
      simpl in *. split; [exact Hb | now rewrite Ho].
    + pose proof (in_flight_latency_step probe _ _ IHl) as Hl.
      pose proof (other_record_latency_step probe (monitor s) (latency_thread s)) as Ho.
      destruct (update_latency probe (monitor s) (latency_thread s)) as [s1 pc1].
      simpl in *. split; [now rewrite Ho | exact Hl].
    + pose proof (keeps_records_draw_screen ts (monitor s)) as Hr.
      unfold records in Hr. injection Hr as Hb Hl _ _ _.
      simpl. rewrite Hb, Hl. split; assumption.
    + simpl. split; assumption.
Qed.

(** C1 (as the code has it): the two fields are written by two separate
    stores, the data first.  In every reachable state where a collector has
    stored its probe output and not yet its status, its record reads
    [Updating...] over the new output; that collector's next step turns it
    into [OK] over the same output, so [OK] is never shown over data older
    than the output it reports. *)
Theorem data_stored_before_status (s : System) (result : Py.str) :
  reachable s ->
  (bandwidth_thread s = AtStoreOk result ->
   bandwidth_data (monitor s) = {| status := Updating; data := Some result |} /\
   forall probe,
     bandwidth_data (monitor (sys_step s (RunBandwidth probe)))
       = {| status := Ok; data := Some result |}) /\
  (latency_thread s = AtStoreOk result ->
   latency_data (monitor s) = {| status := Updating; data := Some result |} /\
   forall probe,
     latency_data (monitor (sys_step s (RunLatency probe)))
       = {| status := Ok; data := Some result |}).
Proof.
  intros Hr. destruct (reachable_in_flight s Hr) as [Hb Hl].
  split; intros Hpc.
  - rewrite Hpc in Hb. simpl in Hb. split; [exact Hb|].
    intros probe. unfold sys_step. rewrite Hpc. simpl. now rewrite Hb.
  - rewrite Hpc in Hl. simpl in Hl. split; [exact Hl|].
    intros probe. unfold sys_step. rewrite Hpc. simpl. now rewrite Hl.
Qed.

Lemma data_stored_before_status_witness :
  let p := Completed (Py.lit "Download: 50 Mbps") in
  let s := sys_step (sys_step (sys_step (sys_step (start (Curses.newwin 24 80))
             (RunBandwidth p)) (RunBandwidth p)) (RunBandwidth p)) (RunBandwidth p) in
  bandwidth_data (monitor s)
    = {| status := Updating; data := Some (Py.lit "Download: 50 Mbps") |} /\
  forall probe,
    bandwidth_data (monitor (sys_step s (RunBandwidth probe)))
      = {| status := Ok; data := Some (Py.lit "Download: 50 Mbps") |}.
Proof.
  apply (data_stored_before_status
           (sys_step (sys_step (sys_step (sys_step (start (Curses.newwin 24 80))
              (RunBandwidth (Completed (Py.lit "Download: 50 Mbps"))))
              (RunBandwidth (Completed (Py.lit "Download: 50 Mbps"))))
              (RunBandwidth (Completed (Py.lit "Download: 50 Mbps"))))
              (RunBandwidth (Completed (Py.lit "Download: 50 Mbps"))))
           (Py.lit "Download: 50 Mbps")).
  - repeat apply reach_step. apply reach_start.
  - reflexivity.
Defined.

(** C1 fails as stated: after a first successful cycle, the second cycle's
    store of the data leaves the record with the status written before the
    probe ran and the output written after it; a frame drawn at that moment
    shows the new output under the [Updating...] tag.  The record is neither
    the one before the two stores nor the one after them. *)
Lemma reader_sees_old_status_with_new_data :
  let first := Completed (Py.lit "Download: 50 Mbps") in
  let second := Completed (Py.lit "Download: 80 Mbps") in
  let before := run_events (start (Curses.newwin 24 80))
                  (repeat (RunBandwidth first) 6
                   ++ repeat (RunBandwidth second) 3) in
  let between := sys_step before (RunBandwidth second) in
  let after := sys_step between (RunBandwidth second) in
  let shown := sys_step between (Frame (Py.lit "2026-01-01 00:00:00")) in
  bandwidth_thread before = AtStoreData (Py.lit "Download: 80 Mbps") /\
  bandwidth_data (monitor before)
    = {| status := Updating; data := Some (Py.lit "Download: 50 Mbps") |} /\
  bandwidth_data (monitor between)
    = {| status := Updating; data := Some (Py.lit "Download: 80 Mbps") |} /\
  bandwidth_data (monitor after)
    = {| status := Ok; data := Some (Py.lit "Download: 80 Mbps") |} /\
  bandwidth_data (monitor between) <> bandwidth_data (monitor before) /\
  bandwidth_data (monitor between) <> bandwidth_data (monitor after) /\
  map snd (firstn 33 (Curses.on_row (screen (monitor shown)) 2))
    = [Curses.ACS_VLINE] ++ map Curses.Char (Py.lit "=== Bandwidth === ")
      ++ [Curses.Char 10251] ++ map Curses.Char (Py.lit "[Updating...]") /\
  map snd (Curses.on_row (screen (monitor shown)) 3)
    = [Curses.ACS_VLINE] ++ map Curses.Char (Py.lit "Download: 80 Mbps").
Proof.
  vm_compute. repeat split; discriminate.
Qed.

(** ** Shutdown *)

Lemma join_after_stop (m : Metric) (sleep : Z) (probe : ProbeResult)
  (d e : Z) (self : NetworkMonitor) (pc : Pc) :
  running self = false -> 0 <= d -> 0 <= sleep ->
  0 <= e <= seconds sleep d pc ->
  exists self' t,
    join 6 m sleep probe d e self pc = Some (self', t) /\
    running self' = false /\
    0 <= t <= d + sleep /\
    (pc = AtSleep -> t = sleep - e) /\
    (pc = AtRun -> t = d - e + sleep).
Proof.
  intros Hrun Hd Hs He.
  destruct pc; simpl in He; try destruct probe; cbn -[Z.add Z.sub];
    rewrite ?Hrun;
    eexists; eexists; (split; [reflexivity|]);
    (split; [exact Hrun|]);
    (split; [lia|]); split; intros E; try discriminate E; lia.
Qed.

(** C3 (as the code has it): once the flag is cleared, each collector still
    runs its cycle to the end, the rest of a [time.sleep] under way
    included, sees the flag only at the head of its loop and then exits;
    [run] returns after the slower of the two.  With probes that take [db]
    and [dl] seconds the wait is at most the larger of [db + 300] and
    [dl + 5]; and when the interrupt finds a collector [eb] (or [el])
    seconds into its sleep, the wait is at least what is left of that
    sleep. *)
Theorem shutdown_waits_out_the_sleep
  (probe_b probe_l : ProbeResult) (db eb dl el : Z) (s : System) :
  0 <= db -> 0 <= dl ->
  0 <= eb <= seconds bandwidth_sleep db (bandwidth_thread s) ->
  0 <= el <= seconds latency_sleep dl (latency_thread s) ->
  exists s' t,
    shutdown 6 probe_b db eb probe_l dl el s = Some (s', t) /\
    bandwidth_thread s' = Finished /\ latency_thread s' = Finished /\
    0 <= t <= Z.max (db + bandwidth_sleep) (dl + latency_sleep) /\
    (bandwidth_thread s = AtSleep -> bandwidth_sleep - eb <= t) /\
    (latency_thread s = AtSleep -> latency_sleep - el <= t).
Proof.
  intros Hb Hl Heb Hel. unfold shutdown.
  destruct (join_after_stop Bandwidth bandwidth_sleep probe_b db eb
              (set_running (monitor s) false) (bandwidth_thread s))
    as (s1 & tb & Eb & R1 & Rb & Sb & _);
    [reflexivity | exact Hb | unfold bandwidth_sleep; lia | exact Heb |].
  rewrite Eb.
  destruct (join_after_stop Latency latency_sleep probe_l dl el s1 (latency_thread s))
    as (s2 & tl & El & _ & Rl & Sl & _);
    [exact R1 | exact Hl | unfold latency_sleep; lia | exact Hel |].
  rewrite El. eexists; eexists. split; [reflexivity|].
  cbn [bandwidth_thread latency_thread].
  split; [reflexivity|]. split; [reflexivity|].
  split; [lia|]. split; intros E.
  - specialize (Sb E). lia.
  - specialize (Sl E). lia.
Qed.

Lemma shutdown_waits_out_the_sleep_witness :
  let p := Completed (Py.lit "Download: 50 Mbps") in
  let s := run_events (start (Curses.newwin 24 80)) (repeat (RunBandwidth p) 5) in
  exists s' t,
    shutdown 6 p 1 120 (Failed (Py.lit "ping: not found")) 1 0 s = Some (s', t) /\
    bandwidth_thread s' = Finished /\ latency_thread s' = Finished /\
    180 <= t <= 301.
Proof.
  intros p s.
  destruct (shutdown_waits_out_the_sleep p (Failed (Py.lit "ping: not found"))
              1 120 1 0 s)
    as (s' & t & E & Fb & Fl & Ht & Hb & _);
    [lia | lia | vm_compute; split; discriminate | vm_compute; split; discriminate |].
  exists s', t. split; [exact E|]. split; [exact Fb|]. split; [exact Fl|].
  specialize (Hb eq_refl). unfold bandwidth_sleep, latency_sleep in *. lia.
Defined.

(** C3 fails as stated: with probes that take no time at all, an interrupt
    that arrives when the bandwidth collector has just begun to sleep makes
    [run] wait the full 300 seconds; and for a collector that has just begun
    its sleep the wait is the sleep itself, so no bound holds for every
    interval. *)
Lemma shutdown_takes_the_full_interval :
  let p := Completed (Py.lit "Download: 50 Mbps") in
  let s := run_events (start (Curses.newwin 24 80)) (repeat (RunBandwidth p) 5) in
  bandwidth_thread s = AtSleep /\
  option_map snd (shutdown 6 p 0 0 p 0 0 s) = Some 300 /\
  ~ (exists bound, forall sleep, 0 <= sleep ->
       forall self' t,
         join 6 Bandwidth sleep p 0 0 (set_running (monitor s) false) AtSleep
           = Some (self', t) ->
         t <= bound).
Proof.
  split; [reflexivity|]. split; [vm_compute; reflexivity|].
  intros [bound H].
  specialize (H (Z.max 0 bound + 1) ltac:(lia)).
  cbn -[Z.add Z.sub Z.max] in H.
  specialize (H _ _ eq_refl). lia.
Qed.

(** * Further properties of the code *)

(** ** Collector cycles *)

(** A probe cycle whose invocation returns ends at the sleep with the
    record's status [OK] and its data the captured output, whatever the
    record held before. *)
Theorem completed_probe_stores_output (m : Metric) (out : Py.str)
  (self : NetworkMonitor) :
  running self = true ->
  snd (steps 5 m (Completed out) self AtWhile) = AtSleep /\
  get_record (fst (steps 5 m (Completed out) self AtWhile)) m
    = {| status := Ok; data := Some out |}.
Proof.
  intros Hrun. simpl. rewrite Hrun. simpl.
  destruct m; split; reflexivity.
Qed.

Lemma completed_probe_stores_output_witness :
  get_record (fst (steps 5 Bandwidth (Completed (Py.lit "Download: 50 Mbps"))
                     (init (Curses.newwin 24 80)) AtWhile)) Bandwidth
    = {| status := Ok; data := Some (Py.lit "Download: 50 Mbps") |}.
Proof.
  apply (completed_probe_stores_output Bandwidth (Py.lit "Download: 50 Mbps")
           (init (Curses.newwin 24 80))).
  reflexivity.
Defined.

(** While the probe is outstanding the record reads [Updating...] over the
    data it held before the cycle began. *)
Theorem updating_keeps_previous_data (m : Metric) (probe : ProbeResult)
  (self : NetworkMonitor) :
  running self = true ->
  snd (steps 2 m probe self AtWhile) = AtRun /\
  status (get_record (fst (steps 2 m probe self AtWhile)) m) = Updating /\
  data (get_record (fst (steps 2 m probe self AtWhile)) m)
    = data (get_record self m) /\
  get_record (fst (steps 3 m probe self AtWhile)) m
    = get_record (fst (steps 2 m probe self AtWhile)) m.
Proof.
  intros Hrun. simpl. rewrite Hrun. simpl.
  destruct m, probe; repeat split.
Qed.

Lemma updating_keeps_previous_data_witness :
  let self := set_record (init (Curses.newwin 24 80)) Latency
                {| status := Ok; data := Some (Py.lit "3 packets") |} in
  status (get_record (fst (steps 2 Latency (Failed []) self AtWhile)) Latency)
    = Updating /\
  data (get_record (fst (steps 2 Latency (Failed []) self AtWhile)) Latency)
    = Some (Py.lit "3 packets").
Proof.
  intros self.
  destruct (updating_keeps_previous_data Latency (Failed []) self eq_refl)
    as (_ & Hs & Hd & _).
  split; [exact Hs | exact Hd].
Defined.

(** A cycle that succeeds followed by a cycle that fails leaves the error
    text over the output of the successful one. *)
Theorem error_after_success_keeps_output (m : Metric) (out e : Py.str)
  (self : NetworkMonitor) :
  running self = true ->
  let s1 := steps 6 m (Completed out) self AtWhile in
  snd s1 = AtWhile /\
  snd (steps 4 m (Failed e) (fst s1) AtWhile) = AtSleep /\
  get_record (fst (steps 4 m (Failed e) (fst s1) AtWhile)) m
    = {| status := Py.lit "Error: " ++ e; data := Some out |}.
Proof.
  intros Hrun. simpl. rewrite Hrun. simpl. rewrite Hrun. simpl.
  destruct m; repeat split.
Qed.

Lemma error_after_success_keeps_output_witness :
  let s1 := steps 6 Bandwidth (Completed (Py.lit "Download: 50 Mbps"))
              (init (Curses.newwin 24 80)) AtWhile in
  get_record (fst (steps 4 Bandwidth (Failed (Py.lit "timed out")) (fst s1) AtWhile))
             Bandwidth
    = {| status := Py.lit "Error: timed out";
         data := Some (Py.lit "Download: 50 Mbps") |}.
Proof.
  apply (error_after_success_keeps_output Bandwidth (Py.lit "Download: 50 Mbps")
           (Py.lit "timed out") (init (Curses.newwin 24 80))).
  reflexivity.
Defined.

Lemma collector_frame (m : Metric) (probe : ProbeResult) (self : NetworkMonitor)
  (pc : Pc) :
  screen (fst (collector m probe self pc)) = screen self /\
  spinner_idx (fst (collector m probe self pc)) = spinner_idx self /\
  running (fst (collector m probe self pc)) = running self.
Proof.
  destruct pc; simpl; try destruct (running self) eqn:E; try destruct probe;
    simpl; repeat split; try exact E.
Qed.

(** A collector never draws, never moves the spinner and never changes the
    running flag: over any number of steps and any probe results the
    screen, the spinner index and the flag are as they were. *)
Theorem collector_leaves_screen_spinner_flag (m : Metric)
  (probes : list ProbeResult) (self : NetworkMonitor) (pc : Pc) :
  screen (fst (run_collector m probes self pc)) = screen self /\
  spinner_idx (fst (run_collector m probes self pc)) = spinner_idx self /\
  running (fst (run_collector m probes self pc)) = running self.
Proof.
  unfold run_collector. revert self pc.
  induction probes as [|probe probes IH]; intros self pc; simpl.
  - repeat split.
  - destruct (collector_frame m probe self pc) as (H1 & H2 & H3).
    destruct (collector m probe self pc) as [s1 pc1]. simpl in *.
    destruct (IH s1 pc1) as (I1 & I2 & I3).
    rewrite I1, I2, I3. repeat split; assumption.
Qed.

(** While the running flag stays set a collector never leaves its loop:
    whatever the probes do, no number of steps takes it to the end. *)
Theorem collector_loops_while_running (m : Metric) (probes : list ProbeResult)
  (self : NetworkMonitor) (pc : Pc) :
  running self = true -> pc <> Finished ->
  snd (run_collector m probes self pc) <> Finished.
Proof.
  unfold run_collector. revert self pc.
  induction probes as [|probe probes IH]; intros self pc Hrun Hpc; simpl.
  - exact Hpc.
  - destruct (collector_frame m probe self pc) as (_ & _ & H3).
    assert (Hn : snd (collector m probe self pc) <> Finished).
    { destruct pc; simpl; try rewrite Hrun; try destruct probe; simpl;
        try discriminate; contradiction. }
    destruct (collector m probe self pc) as [s1 pc1]. simpl in *.
    apply IH; [congruence | exact Hn].
Qed.

Lemma collector_loops_while_running_witness :
  snd (run_collector Latency
         (repeat (Failed (Py.lit "ping: not found")) 40)
         (init (Curses.newwin 24 80)) AtWhile) <> Finished.
Proof.
  apply (collector_loops_while_running Latency
           (repeat (Failed (Py.lit "ping: not found")) 40)
           (init (Curses.newwin 24 80)) AtWhile).
  - reflexivity.
  - discriminate.
Defined.

(** ** Spinner *)

Section Maintains.

Variable P : NetworkMonitor -> Prop.
Hypothesis P_screen : forall self w, P self -> P (set_screen self w).

Lemma maintains_ret {A : Type} (a : A) : maintains P (ret a).
Proof. intros self H. exact H. Qed.

Lemma maintains_bind {A B : Type} (m : M A) (f : A -> M B) :
  maintains P m -> (forall a, maintains P (f a)) -> maintains P (bind m f).
Proof.
  intros Hm Hf self HP. unfold bind. specialize (Hm self HP).
  destruct (m self) as [a s1|e s1]; simpl in *; [now apply Hf | exact Hm].
Qed.

Lemma maintains_for {A : Type} (l : list A) (body : A -> M unit) :
  (forall a, maintains P (body a)) -> maintains P (for_ l body).
Proof.
  intros Hb. induction l as [|a l IH]; simpl.
  - apply maintains_ret.
  - apply maintains_bind; [apply Hb | intros _; exact IH].
Qed.

Lemma maintains_on_screen f : maintains P (on_screen f).
Proof.
  intros self HP. unfold on_screen.
  destruct (f (screen self)) as [w [|]]; simpl; now apply P_screen.
Qed.

End Maintains.

Lemma keeps_maintains {A : Type} (m : M A) :
  keeps spinner_idx m -> maintains spinner_in_range m.
Proof. intros Hk self HP. unfold spinner_in_range. now rewrite Hk. Qed.

Lemma maintains_get_spinner : maintains spinner_in_range get_spinner.
Proof.
  intros self HP. unfold get_spinner.
  destruct (Py.index spinner (spinner_idx self)); simpl; [|exact HP].
  unfold spinner_in_range. simpl.
  change (Py.len spinner) with 10. apply Z.mod_pos_bound. lia.
Qed.

Lemma maintains_draw_panel t m y x h w :
  maintains spinner_in_range (draw_panel t m y x h w).
Proof.
  unfold draw_panel.
  apply maintains_bind; [apply keeps_maintains, keeps_load|]. intros r1.
  apply maintains_bind.
  - destruct (Py.str_eqb (status r1) Updating);
      [apply maintains_get_spinner | apply maintains_ret].
  - intros sp. apply keeps_maintains. apply keeps_panel_rest. reflexivity.
Qed.

Lemma maintains_draw_screen ts : maintains spinner_in_range (draw_screen ts).
Proof.
  assert (S : forall self w, spinner_in_range self ->
                             spinner_in_range (set_screen self w))
    by (intros self w H; exact H).
  unfold draw_screen, clear, refresh.
  apply maintains_bind; [now apply maintains_on_screen|]. intros _.
  apply maintains_bind; [apply keeps_maintains, keeps_getmaxyx|].
  intros [max_y max_x].
  apply maintains_bind;
    [apply keeps_maintains, keeps_draw_borders; reflexivity|]. intros _.
  apply maintains_bind; [now apply maintains_on_screen|]. intros _.
  apply maintains_bind.
  - apply maintains_for. intros [[t m] r]. apply maintains_draw_panel.
  - intros _. apply maintains_bind; [now apply maintains_on_screen|].
    intros _. apply maintains_ret.
Qed.

(** In every state the program can reach, with any interleaving of
    collector steps, frames and the interrupt, the spinner index is one of
    the ten frame positions, so [get_spinner] does not raise IndexError. *)
Theorem reachable_spinner_in_range (s : System) :
  reachable s ->
  0 <= spinner_idx (monitor s) < 10 /\
  raised (get_spinner (monitor s)) = None.
Proof.
  intros Hr.
  assert (H : spinner_in_range (monitor s)).
  { induction Hr as [stdscr | s e _ IH].
    - unfold spinner_in_range. simpl. lia.
    - destruct e as [probe | probe | ts | ]; unfold sys_step.
      + pose proof (collector_frame Bandwidth probe (monitor s) (bandwidth_thread s))
          as (_ & H2 & _).
        unfold update_bandwidth.
        destruct (collector Bandwidth probe (monitor s) (bandwidth_thread s)).
        simpl in *. unfold spinner_in_range in *. now rewrite H2.
      + pose proof (collector_frame Latency probe (monitor s) (latency_thread s))
          as (_ & H2 & _).
        unfold update_latency.
        destruct (collector Latency probe (monitor s) (latency_thread s)).
        simpl in *. unfold spinner_in_range in *. now rewrite H2.
      + simpl. now apply maintains_draw_screen.
      + exact IH. }
  split; [exact H|].
  unfold get_spinner.
  destruct (index_spinner_in_range _ H) as [char ->]. reflexivity.
Qed.

Lemma reachable_spinner_in_range_witness :
  let s := sys_step (sys_step (sys_step (start (Curses.newwin 24 80))
             (RunBandwidth (Failed []))) (RunBandwidth (Failed [])))
             (Frame (Py.lit "2026-01-01 00:00:00")) in
  0 <= spinner_idx (monitor s) < 10 /\
  raised (get_spinner (monitor s)) = None.
Proof.
  apply (reachable_spinner_in_range
           (sys_step (sys_step (sys_step (start (Curses.newwin 24 80))
              (RunBandwidth (Failed []))) (RunBandwidth (Failed [])))
              (Frame (Py.lit "2026-01-01 00:00:00")))).
  repeat apply reach_step. apply reach_start.
Defined.

(** Ten calls of [get_spinner] in a row return the ten frames in order,
    starting with the one at the current index and wrapping round, and
    leave the monitor exactly as it was. *)
Theorem spinner_has_period_ten (self : NetworkMonitor) :
  0 <= spinner_idx self < 10 ->
  spin 10 self
    = Return (skipn (Z.to_nat (spinner_idx self)) spinner
              ++ firstn (Z.to_nat (spinner_idx self)) spinner) self.
Proof.
  intros H. destruct self as [scr idx b l st r p run]. simpl in H |- *.
  assert (C : idx = 0 \/ idx = 1 \/ idx = 2 \/ idx = 3 \/ idx = 4 \/
              idx = 5 \/ idx = 6 \/ idx = 7 \/ idx = 8 \/ idx = 9) by lia.
  destruct C as [->|[->|[->|[->|[->|[->|[->|[->|[->| ->]]]]]]]]];
    reflexivity.
Qed.

Lemma spinner_has_period_ten_witness :
  let self := set_spinner_idx (init (Curses.newwin 24 80)) 7 in
  spin 10 self
    = Return (skipn 7 spinner ++ firstn 7 spinner) self.
Proof.
  apply (spinner_has_period_ten (set_spinner_idx (init (Curses.newwin 24 80)) 7)).
  simpl. lia.
Defined.

(** ** Records in reachable states *)

Lemma collector_other_record (m m' : Metric) probe self pc :
  m' <> m -> get_record (fst (collector m probe self pc)) m' = get_record self m'.
Proof.
  intros Hne.
  destruct pc; simpl; try destruct (running self); try destruct probe; simpl;
    try reflexivity; destruct m, m'; try reflexivity; contradiction.
Qed.

Lemma well_formed_step (m : Metric) probe self pc :
  in_flight (get_record self m) pc ->
  well_formed (get_record self m) ->
  well_formed (get_record (fst (collector m probe self pc)) m).
Proof.
  intros Hf [Hok Hinit].
  destruct pc; simpl in *; try destruct (running self); try destruct probe;
    simpl; try (split; assumption);
    destruct m; simpl in *; split; intros E;
    try (cbv in E; discriminate E);
    try discriminate;
    try (rewrite Hf in E; cbv in E; discriminate E);
    try (rewrite Hf; simpl; discriminate).
Qed.

Lemma reachable_well_formed (s : System) :
  reachable s -> forall m, well_formed (get_record (monitor s) m).
Proof.
  induction 1 as [stdscr | s e Hr IH]; intros m.
  - destruct m; simpl; split; intros E; try discriminate E; reflexivity.
  - destruct (reachable_in_flight s Hr) as [Fb Fl].
    destruct e as [probe | probe | ts | ]; unfold sys_step.
    + pose proof (well_formed_step Bandwidth probe (monitor s) (bandwidth_thread s)
                    Fb (IH Bandwidth)) as Hw.
      pose proof (fun m' => collector_other_record Bandwidth m' probe (monitor s)
                              (bandwidth_thread s)) as Ho.
      unfold update_bandwidth.
      destruct (collector Bandwidth probe (monitor s) (bandwidth_thread s)) as [s1 pc1].
      simpl in *.
      destruct m; try exact Hw; rewrite Ho by discriminate; apply IH.
    + pose proof (well_formed_step Latency probe (monitor s) (latency_thread s)
                    Fl (IH Latency)) as Hw.
      pose proof (fun m' => collector_other_record Latency m' probe (monitor s)
                              (latency_thread s)) as Ho.
      unfold update_latency.
      destruct (collector Latency probe (monitor s) (latency_thread s)) as [s1 pc1].
      simpl in *.
      destruct m; try exact Hw; rewrite Ho by discriminate; apply IH.
    + pose proof (keeps_records_draw_screen ts (monitor s)) as Hk.
      unfold records in Hk. injection Hk as H1 H2 H3 H4 H5.
      specialize (IH m). destruct m; simpl in *; congruence.
    + specialize (IH m). destruct m; exact IH.
Qed.

(** In every reachable state, for each of the five records: a record whose
    status is [OK] holds some probe output, and a record still at
    [Initializing...] holds none. *)
Theorem reachable_ok_has_data (s : System) (m : Metric) :
  reachable s ->
  (status (get_record (monitor s) m) = Ok ->
   exists out, data (get_record (monitor s) m) = Some out) /\
  (status (get_record (monitor s) m) = Initializing ->
   data (get_record (monitor s) m) = None).
Proof.
  intros Hr. destruct (reachable_well_formed s Hr m) as [Hok Hinit].
  split; [|exact Hinit].
  intros E. specialize (Hok E).
  destruct (data (get_record (monitor s) m)) as [out|];
    [now exists out | contradiction].
Qed.

Lemma reachable_ok_has_data_witness :
  let p := Completed (Py.lit "Download: 50 Mbps") in
  let s := sys_step (sys_step (sys_step (sys_step (sys_step
             (start (Curses.newwin 24 80))
             (RunBandwidth p)) (RunBandwidth p)) (RunBandwidth p))
             (RunBandwidth p)) (RunBandwidth p) in
  exists out, data (get_record (monitor s) Bandwidth) = Some out.
Proof.
  intros p s.
  apply (reachable_ok_has_data s Bandwidth).
  - repeat apply reach_step. apply reach_start.
  - reflexivity.
Defined.

(** No collector writes the stability, routing or protocol record: in
    every reachable state the three are still the record [__init__] made,
    status [Initializing...] and no data. *)
Theorem reachable_placeholders_untouched (s : System) :
  reachable s ->
  stability_data (monitor s) = fresh /\
  routing_data (monitor s) = fresh /\
  protocol_data (monitor s) = fresh.
Proof.
  induction 1 as [stdscr | s e Hr (I1 & I2 & I3)].
  - repeat split.
  - destruct e as [probe | probe | ts | ]; unfold sys_step.
    + pose proof (fun m' => collector_other_record Bandwidth m' probe (monitor s)
                              (bandwidth_thread s)) as Ho.
      unfold update_bandwidth.
      destruct (collector Bandwidth probe (monitor s) (bandwidth_thread s)) as [s1 pc1].
      simpl in *.
      pose proof (Ho Stability ltac:(discriminate)) as H1.
      pose proof (Ho Routing ltac:(discriminate)) as H2.
      pose proof (Ho Protocol ltac:(discriminate)) as H3.
      simpl in H1, H2, H3. rewrite H1, H2, H3. repeat split; assumption.
    + pose proof (fun m' => collector_other_record Latency m' probe (monitor s)
                              (latency_thread s)) as Ho.
      unfold update_latency.
      destruct (collector Latency probe (monitor s) (latency_thread s)) as [s1 pc1].
      simpl in *.
      pose proof (Ho Stability ltac:(discriminate)) as H1.
      pose proof (Ho Routing ltac:(discriminate)) as H2.
      pose proof (Ho Protocol ltac:(discriminate)) as H3.
      simpl in H1, H2, H3. rewrite H1, H2, H3. repeat split; assumption.
    + pose proof (keeps_records_draw_screen ts (monitor s)) as Hk.
      unfold records in Hk. injection Hk as _ _ H3 H4 H5.
      simpl. rewrite H3, H4, H5. repeat split; assumption.
    + simpl. repeat split; assumption.
Qed.

Lemma reachable_placeholders_untouched_witness :
  let p := Completed (Py.lit "Download: 50 Mbps") in
  let s := sys_step (sys_step (sys_step (sys_step
             (start (Curses.newwin 24 80))
             (RunBandwidth p)) (RunLatency p)) (Frame []))
             (RunLatency p) in
  stability_data (monitor s) = fresh /\
  routing_data (monitor s) = fresh /\
  protocol_data (monitor s) = fresh.
Proof.
  intros p s. apply (reachable_placeholders_untouched s).
  repeat apply reach_step. apply reach_start.
Defined.

(** ** Borders *)

Lemma set_screen_same self : set_screen self (screen self) = self.
Proof. destruct self; reflexivity. Qed.

Lemma in_range (n x : Z) : In x (Py.range n) -> 0 <= x < n.
Proof.
  unfold Py.range. intros H. apply in_map_iff in H as (k & <- & Hk).
  apply in_seq in Hk. lia.
Qed.

Lemma mvwaddch_inside w y x g a :
  0 <= y < Curses.max_y w -> 0 <= x < Curses.max_x w ->
  x + 1 < Curses.max_x w \/ y + 1 < Curses.max_y w ->
  exists w',
    Curses.mvwaddch w y x g a = (w', Curses.OK) /\
    Curses.max_y w' = Curses.max_y w /\ Curses.max_x w' = Curses.max_x w /\
    Curses.cells w'
      = {| Curses.row := y; Curses.col := x; Curses.what := g; Curses.how := a |}
        :: Curses.cells w.
Proof.
  intros Hy Hx Hc. unfold Curses.mvwaddch, Curses.wmove, Curses.inside.
  replace (0 <=? y) with true by (symmetry; apply Z.leb_le; lia).
  replace (y <? Curses.max_y w) with true by (symmetry; apply Z.ltb_lt; lia).
  replace (0 <=? x) with true by (symmetry; apply Z.leb_le; lia).
  replace (x <? Curses.max_x w) with true by (symmetry; apply Z.ltb_lt; lia).
  unfold Curses.waddch; simpl.
  destruct (x + 1 <? Curses.max_x w) eqn:E1.
  - eexists. repeat split.
  - destruct (y + 1 <? Curses.max_y w) eqn:E2.
    + eexists. repeat split.
    + apply Z.ltb_ge in E1. apply Z.ltb_ge in E2. lia.
Qed.

Lemma for_addch {A : Type} (fy fx : A -> Z) (g : Curses.glyph) (l : list A) :
  forall self,
    (forall a, In a l ->
       0 <= fy a < Curses.max_y (screen self) /\
       0 <= fx a < Curses.max_x (screen self) /\
       (fx a + 1 < Curses.max_x (screen self) \/
        fy a + 1 < Curses.max_y (screen self))) ->
    exists w',
      for_ l (fun a => addch (fy a) (fx a) g) self = Return tt (set_screen self w') /\
      Curses.max_y w' = Curses.max_y (screen self) /\
      Curses.max_x w' = Curses.max_x (screen self) /\
      Curses.cells w'
        = rev (map (fun a => {| Curses.row := fy a; Curses.col := fx a;
                                Curses.what := g; Curses.how := Curses.A_NORMAL |}) l)
          ++ Curses.cells (screen self).
Proof.
  induction l as [|a l IH]; intros self Hin.
  - exists (screen self). rewrite set_screen_same. repeat split.
  - destruct (Hin a (or_introl eq_refl)) as (Hy & Hx & Hc).
    destruct (mvwaddch_inside (screen self) (fy a) (fx a) g Curses.A_NORMAL Hy Hx Hc)
      as (w1 & E1 & Y1 & X1 & C1).
    destruct (IH (set_screen self w1)) as (w2 & E2 & Y2 & X2 & C2).
    { intros b Hb. simpl. rewrite Y1, X1. apply Hin. now right. }
    exists w2. simpl in *. unfold bind, addch, on_screen. rewrite E1.
    split; [exact E2|]. split; [congruence|]. split; [congruence|].
    rewrite C2, C1, <- app_assoc. reflexivity.
Qed.

(** On a terminal of at least 3 rows and 3 columns [draw_borders] returns
    without an exception and adds exactly these cells, in this order: the
    midpoint row from column 0 to the last, the midpoint column from row 0
    to the last, and the junction at their crossing. *)
Theorem draw_borders_cells (self : NetworkMonitor) :
  3 <= Curses.max_y (screen self) -> 3 <= Curses.max_x (screen self) ->
  let H := Curses.max_y (screen self) in
  let W := Curses.max_x (screen self) in
  let line y x g := {| Curses.row := y; Curses.col := x; Curses.what := g;
                       Curses.how := Curses.A_NORMAL |} in
  exists w',
    draw_borders self = Return tt (set_screen self w') /\
    Curses.max_y w' = H /\ Curses.max_x w' = W /\
    Curses.cells w'
      = line (H / 2) (W / 2) Curses.ACS_PLUS
        :: rev (map (fun y => line y (W / 2) Curses.ACS_VLINE) (Py.range H))
        ++ rev (map (fun x => line (H / 2) x Curses.ACS_HLINE) (Py.range W))
        ++ Curses.cells (screen self).
Proof.
  intros HH HW H W line.
  pose proof (Z.mul_div_le H 2 ltac:(lia)) as Hy.
  pose proof (Z.mul_div_le W 2 ltac:(lia)) as Hx.
  pose proof (Z.div_pos H 2 ltac:(lia) ltac:(lia)) as Hy0.
  pose proof (Z.div_pos W 2 ltac:(lia) ltac:(lia)) as Hx0.
  unfold draw_borders. unfold bind at 1. unfold getmaxyx. cbv beta iota.
  fold H W.
  destruct (for_addch (fun _ : Z => H / 2) (fun x : Z => x) Curses.ACS_HLINE
              (Py.range W) self) as (w1 & E1 & Y1 & X1 & C1).
  { intros x Hin. apply in_range in Hin. fold H W. lia. }
  destruct (for_addch (fun y : Z => y) (fun _ : Z => W / 2) Curses.ACS_VLINE
              (Py.range H) (set_screen self w1)) as (w2 & E2 & Y2 & X2 & C2).
  { intros y Hin. apply in_range in Hin. simpl. rewrite Y1, X1. fold H W. lia. }
  simpl in Y2, X2, C2.
  destruct (mvwaddch_inside w2 (H / 2) (W / 2) Curses.ACS_PLUS Curses.A_NORMAL)
    as (w3 & E3 & Y3 & X3 & C3).
  { rewrite Y2, Y1. fold H. lia. }
  { rewrite X2, X1. fold W. lia. }
  { left. rewrite X2, X1. fold W. lia. }
  exists w3. unfold bind. rewrite E1, E2. unfold addch, on_screen. simpl.
  rewrite E3. split; [reflexivity|].
  split; [rewrite Y3, Y2, Y1; reflexivity|].
  split; [rewrite X3, X2, X1; reflexivity|].
  rewrite C3, C2, C1. reflexivity.
Qed.

Lemma draw_borders_cells_witness :
  exists w',
    draw_borders (init (Curses.newwin 3 3))
      = Return tt (set_screen (init (Curses.newwin 3 3)) w') /\
    List.length (Curses.cells w') = 7%nat.
Proof.
  destruct (draw_borders_cells (init (Curses.newwin 3 3)))
    as (w' & E & _ & _ & C); [simpl; lia | simpl; lia |].
  exists w'. split; [exact E|]. rewrite C. reflexivity.
Defined.

(** ** What a panel and a frame depend on *)

Section Commutes.

Variable g : NetworkMonitor -> NetworkMonitor.
Hypothesis g_screen : forall s, screen (g s) = screen s.
Hypothesis g_set_screen : forall s w, set_screen (g s) w = g (set_screen s w).
Hypothesis g_idx : forall s, spinner_idx (g s) = spinner_idx s.
Hypothesis g_set_idx : forall s i, set_spinner_idx (g s) i = g (set_spinner_idx s i).

Lemma commutes_ret {A : Type} (a : A) : commutes g (ret a).
Proof. intros self. reflexivity. Qed.

Lemma commutes_bind {A B : Type} (m : M A) (f : A -> M B) :
  commutes g m -> (forall a, commutes g (f a)) -> commutes g (bind m f).
Proof.
  intros Hm Hf self. unfold bind. rewrite Hm.
  destruct (m self) as [a s1|e s1]; simpl; [apply Hf | reflexivity].
Qed.

Lemma commutes_for {A : Type} (l : list A) (body : A -> M unit) :
  (forall a, In a l -> commutes g (body a)) -> commutes g (for_ l body).
Proof.
  induction l as [|a l IH]; intros Hb; simpl.
  - apply commutes_ret.
  - apply commutes_bind; [apply Hb; now left|].
    intros _. apply IH. intros b Hin. apply Hb. now right.
Qed.

Lemma commutes_on_screen f : commutes g (on_screen f).
Proof.
  intros self. unfold on_screen. rewrite g_screen.
  destruct (f (screen self)) as [w [|]]; simpl; now rewrite g_set_screen.
Qed.

Lemma commutes_getmaxyx : commutes g getmaxyx.
Proof. intros self. unfold getmaxyx. now rewrite g_screen. Qed.

Lemma commutes_get_spinner : commutes g get_spinner.
Proof.
  intros self. unfold get_spinner. rewrite g_idx.
  destruct (Py.index spinner (spinner_idx self)); simpl;
    [now rewrite g_set_idx | reflexivity].
Qed.

Lemma commutes_load m :
  (forall s, get_record (g s) m = get_record s m) -> commutes g (load m).
Proof. intros H self. unfold load. now rewrite H. Qed.

Lemma commutes_draw_borders : commutes g draw_borders.
Proof.
  unfold draw_borders.
  apply commutes_bind; [apply commutes_getmaxyx|]. intros [max_y max_x].
  apply commutes_bind; [apply commutes_for; intros; apply commutes_on_screen|].
  intros _.
  apply commutes_bind; [apply commutes_for; intros; apply commutes_on_screen|].
  intros _. apply commutes_on_screen.
Qed.

Lemma commutes_draw_panel t m y x h w :
  (forall s, get_record (g s) m = get_record s m) ->
  commutes g (draw_panel t m y x h w).
Proof.
  intros Hm. unfold draw_panel.
  apply commutes_bind; [now apply commutes_load|]. intros r1.
  apply commutes_bind.
  { destruct (Py.str_eqb (status r1) Updating);
      [apply commutes_get_spinner | apply commutes_ret]. }
  intros sp.
  apply commutes_bind; [now apply commutes_load|]. intros r2.
  apply commutes_bind; [apply commutes_on_screen|]. intros _.
  apply commutes_bind; [apply commutes_on_screen|]. intros _.
  apply commutes_bind; [now apply commutes_load|]. intros r3.
  apply commutes_bind; [apply commutes_on_screen|]. intros _.
  apply commutes_bind; [now apply commutes_load|]. intros r4.
  destruct (Py.truthy (data r4)); [|apply commutes_ret].
  apply commutes_bind; [now apply commutes_load|]. intros r5.
  unfold draw_lines. apply commutes_for. intros [i line] _.
  destruct (y + i + 1 <? h); [apply commutes_on_screen | apply commutes_ret].
Qed.

Lemma rendering_outcome_map {A : Type} (o : outcome A) :
  rendering (outcome_map g o) = rendering o.
Proof.
  unfold rendering. destruct o; simpl; now rewrite g_screen, g_idx.
Qed.

End Commutes.

Lemma get_other_record self m m' r :
  m' <> m -> get_record (set_record self m' r) m = get_record self m.
Proof. intros H. destruct m, m'; try reflexivity; contradiction. Qed.

(** A panel shows its own record only: replacing any other record of the
    monitor changes nothing of what [draw_panel] draws, of the spinner index
    it leaves, or of the exception it raises. *)
Theorem panel_reads_only_its_record
  (t : Py.str) (m m' : Metric) (r : MetricRecord) (y x h w : Z)
  (self : NetworkMonitor) :
  m' <> m ->
  rendering (draw_panel t m y x h w (set_record self m' r))
  = rendering (draw_panel t m y x h w self).
Proof.
  intros Hne.
  rewrite (commutes_draw_panel (fun s => set_record s m' r)) by
    (try reflexivity; intros s; now apply get_other_record).
  now apply rendering_outcome_map.
Qed.

Lemma panel_reads_only_its_record_witness :
  rendering (draw_panel (Py.lit "Latency") Latency 2 41 11 39
               (set_record (init (Curses.newwin 24 80)) Bandwidth
                  {| status := Ok; data := Some (Py.lit "Download: 50 Mbps") |}))
  = rendering (draw_panel (Py.lit "Latency") Latency 2 41 11 39
                 (init (Curses.newwin 24 80))).
Proof.
  apply (panel_reads_only_its_record (Py.lit "Latency") Latency Bandwidth).
  discriminate.
Defined.

(** The protocol record is never displayed: a frame drawn by [draw_screen]
    is the same, cell for cell, whatever that record holds. *)
Theorem protocol_record_not_displayed (ts : Py.str) (r : MetricRecord)
  (self : NetworkMonitor) :
  rendering (draw_screen ts (set_record self Protocol r))
  = rendering (draw_screen ts self).
Proof.
  assert (C : commutes (fun s => set_record s Protocol r) (draw_screen ts)).
  { unfold draw_screen, clear, refresh.
    apply commutes_bind; [apply commutes_on_screen; reflexivity|]. intros _.
    apply commutes_bind; [apply commutes_getmaxyx; reflexivity|].
    intros [max_y max_x].
    apply commutes_bind; [apply commutes_draw_borders; reflexivity|]. intros _.
    apply commutes_bind; [apply commutes_on_screen; reflexivity|]. intros _.
    apply commutes_bind.
    - apply commutes_for. intros [[t m] rect] Hin.
      apply commutes_draw_panel; try reflexivity.
      intros s. apply get_other_record.
      destruct Hin as [E|[E|[E|[E|[]]]]]; injection E as _ <- _; discriminate.
    - intros _. apply commutes_bind; [apply commutes_on_screen; reflexivity|].
      intros _. apply commutes_ret. }
  rewrite C. now apply rendering_outcome_map.
Qed.

Lemma clear_forgets (w : Curses.window) (self : NetworkMonitor) :
  Curses.max_y w = Curses.max_y (screen self) ->
  Curses.max_x w = Curses.max_x (screen self) ->
  clear (set_screen self w) = clear self.
Proof.
  intros Hy Hx. unfold clear, on_screen.
  cbn [screen set_screen spinner_idx bandwidth_data latency_data stability_data
       routing_data protocol_data running].
  unfold Curses.wclear. rewrite Hy, Hx. reflexivity.
Qed.

(** A frame is painted from scratch: what the window held before, and
    where its cursor was, have no effect on the outcome of [draw_screen]. *)
Theorem frame_ignores_previous_window (ts : Py.str) (w : Curses.window)
  (self : NetworkMonitor) :
  Curses.max_y w = Curses.max_y (screen self) ->
  Curses.max_x w = Curses.max_x (screen self) ->
  draw_screen ts (set_screen self w) = draw_screen ts self.
Proof.
  intros Hy Hx. unfold draw_screen.
  match goal with
  | |- bind ?m ?f ?a = bind ?m ?f ?b =>
      change (match m a with
              | Return x s1 => f x s1
              | Raise e s1 => Raise e s1
              end
              = match m b with
                | Return x s1 => f x s1
                | Raise e s1 => Raise e s1
                end)
  end.
  rewrite (clear_forgets w self Hy Hx). reflexivity.
Qed.

Lemma frame_ignores_previous_window_witness :
  let self := init (Curses.newwin 24 80) in
  let w := screen (final (draw_borders self)) in
  draw_screen [] (set_screen self w) = draw_screen [] self.
Proof.
  intros self w.
  apply (frame_ignores_previous_window [] w self); vm_compute; reflexivity.
Defined.

(** ** Panel bodies *)

Lemma draw_lines_all_skipped ls y x h w self :
  (forall i line, In (i, line) ls -> h <= y + i + 1) ->
  draw_lines ls y x h w self = Return tt self.
Proof.
  unfold draw_lines.
  induction ls as [|[i line] ls IH]; intros Hg; simpl.
  - reflexivity.
  - unfold bind.
    replace (y + i + 1 <? h) with false
      by (symmetry; apply Z.ltb_ge; apply (Hg i line); now left).
    unfold ret at 1. apply IH. intros j l Hin. apply (Hg j l). now right.
Qed.

Lemma enumerate_nonneg {A : Type} (l : list A) (i : Z) (a : A) :
  In (i, a) (Py.enumerate l) -> 0 <= i.
Proof.
  unfold Py.enumerate. intros H. apply in_combine_l in H.
  apply in_map_iff in H as (k & <- & _). lia.
Qed.

Lemma panel_below_its_height t m y x h w self d :
  h <= y + 1 ->
  rendering (draw_panel t m y x h w (store_data self m d))
  = rendering (draw_panel t m y x h w (store_data self m None)).
Proof.
  intros Hh. unfold rendering, draw_panel, store_data.
  destruct m; run_method.
  all: match goal with
       | |- context [Py.str_eqb ?s Updating] => destruct (Py.str_eqb s Updating)
       end; run_method.
  all: try destruct (Py.index spinner (spinner_idx self)); run_method;
    try reflexivity.
  all: destruct (Curses.mvwaddstr _ _ _ _ _) as [w1 [|]]; run_method;
    try reflexivity.
  all: destruct (Curses.waddstr w1 _ _) as [w2 [|]]; run_method; try reflexivity.
  all: destruct (Curses.waddstr w2 _ _) as [w3 [|]]; run_method; try reflexivity.
  all: destruct d as [[|c l]|]; run_method; try reflexivity.
  all: rewrite draw_lines_all_skipped; [reflexivity|].
  all: intros i line Hin; apply enumerate_nonneg in Hin; lia.
Qed.

(** At every terminal size, the two lower panels of [draw_screen] are drawn
    the same whether their record holds data or not: the row test lets no
    body line through, because their row is already past their height. *)
Theorem lower_panels_show_no_data
  (H W : Z) (t : Py.str) (m : Metric) (r : Rect) (self : NetworkMonitor)
  (d : option Py.str) :
  In (t, m, r) (skipn 2 (panels H W)) ->
  rendering (draw_panel t m (top r) (left r) (height r) (width r)
               (store_data self m d))
  = rendering (draw_panel t m (top r) (left r) (height r) (width r)
                 (store_data self m None)).
Proof.
  intros Hin. apply panel_below_its_height.
  simpl in Hin. destruct Hin as [E|[E|[]]]; injection E as _ _ <-;
    cbn [top height]; lia.
Qed.

Lemma lower_panels_show_no_data_witness :
  let r := {| top := 13; left := 41; height := 11; width := 39 |} in
  let self := init (Curses.newwin 24 80) in
  rendering (draw_panel (Py.lit "Routing") Routing 13 41 11 39
               (store_data self Routing (Some (Py.lit "1 hop"))))
  = rendering (draw_panel (Py.lit "Routing") Routing 13 41 11 39
                 (store_data self Routing None)).
Proof.
  intros r self.
  apply (lower_panels_show_no_data 24 80 (Py.lit "Routing") Routing r self
           (Some (Py.lit "1 hop"))).
  right. left. reflexivity.
Defined.

Lemma waddstr_count (s : Py.str) :
  forall w a, exists new,
    Curses.cells (fst (Curses.waddstr w s a)) = new ++ Curses.cells w /\
    (List.length new <= List.length s)%nat.
Proof.
  induction s as [|c s IH]; intros w a; simpl.
  - exists []. split; [reflexivity | apply Nat.le_refl].
  - destruct (Curses.waddch w (Curses.Char c) a) as [w1 r1] eqn:E1.
    assert (C1 : Curses.cells w1 =
                 {| Curses.row := Curses.cur_y w; Curses.col := Curses.cur_x w;
                    Curses.what := Curses.Char c; Curses.how := a |}
                 :: Curses.cells w).
    { unfold Curses.waddch in E1.
      destruct (Curses.cur_x w + 1 <? Curses.max_x w);
        [|destruct (Curses.cur_y w + 1 <? Curses.max_y w)];
        injection E1 as <- _; reflexivity. }
    destruct r1.
    + destruct (IH w1 a) as (new & Hc & Hl).
      exists (new ++ [{| Curses.row := Curses.cur_y w; Curses.col := Curses.cur_x w;
                         Curses.what := Curses.Char c; Curses.how := a |}]).
      split.
      * rewrite Hc, C1, <- app_assoc. reflexivity.
      * rewrite length_app. simpl. lia.
    + exists [{| Curses.row := Curses.cur_y w; Curses.col := Curses.cur_x w;
                 Curses.what := Curses.Char c; Curses.how := a |}].
      split; [exact C1 | simpl; lia].
Qed.

Lemma slice_to_length {A : Type} (l : list A) (n : Z) :
  0 <= n -> Z.of_nat (List.length (Py.slice_to l n)) <= n.
Proof.
  intros Hn. unfold Py.slice_to.
  replace (0 <=? n) with true by (symmetry; apply Z.leb_le; lia).
  pose proof (firstn_le_length (Z.to_nat n) l). lia.
Qed.

Lemma draw_lines_count ls y x h w :
  2 <= w ->
  forall self, exists new,
    Curses.cells (screen (final (draw_lines ls y x h w self)))
      = new ++ Curses.cells (screen self) /\
    Z.of_nat (List.length new) <= Z.of_nat (List.length ls) * (w - 2).
Proof.
  intros Hw. unfold draw_lines.
  induction ls as [|[i line] ls IH]; intros self.
  - exists []. split; [reflexivity | simpl; lia].
  - cbn [for_]. unfold bind at 1.
    destruct (y + i + 1 <? h).
    + unfold addstr_at, on_screen, Curses.mvwaddstr.
      pose proof (wmove_cells (screen self) (y + i + 1) x) as Hm.
      destruct (Curses.wmove (screen self) (y + i + 1) x) as [w1 [|]]; simpl in Hm.
      * destruct (waddstr_count (Py.slice_to line (w - 2)) w1 Curses.A_NORMAL)
          as (n1 & C1 & L1).
        pose proof (slice_to_length line (w - 2) ltac:(lia)) as Ls.
        destruct (Curses.waddstr w1 (Py.slice_to line (w - 2)) Curses.A_NORMAL)
          as [w2 [|]]; simpl in C1.
        -- destruct (IH (set_screen self w2)) as (n2 & C2 & L2).
           exists (n2 ++ n1). cbv beta iota. split.
           ++ transitivity (n2 ++ Curses.cells (screen (set_screen self w2)));
                [exact C2|].
              cbn [screen set_screen]. rewrite C1, Hm, app_assoc. reflexivity.
           ++ rewrite length_app. simpl List.length. nia.
        -- exists n1. cbv beta iota. cbn [final screen set_screen].
           split; [now rewrite C1, Hm|].
           simpl List.length. nia.
      * exists []. cbv beta iota. cbn [final screen set_screen].
        split; [exact Hm|]. simpl List.length. nia.
    + unfold ret at 1.
      destruct (IH self) as (n2 & C2 & L2).
      exists n2. split; [exact C2|]. simpl List.length. nia.
Qed.

(** For data made of printable ASCII characters, the body of a panel of
    height and width at least 2 adds at most [(height - 2) * (width - 2)]
    cells to the window, however many lines the data has and however long
    they are. *)
Theorem panel_body_cell_budget (lines : list Py.str) (y x h w : Z)
  (self : NetworkMonitor) :
  forallb printable lines = true ->
  2 <= h -> 2 <= w ->
  exists new,
    Curses.cells
      (screen (final (draw_lines (Py.enumerate (Py.slice_to lines (h - 2)))
                        y x h w self)))
      = new ++ Curses.cells (screen self) /\
    Z.of_nat (List.length new) <= (h - 2) * (w - 2).
Proof.
  intros _ Hh Hw.
  destruct (draw_lines_count (Py.enumerate (Py.slice_to lines (h - 2))) y x h w Hw self)
    as (new & C & L).
  exists new. split; [exact C|].
  assert (Le : Z.of_nat (List.length (Py.enumerate (Py.slice_to lines (h - 2))))
               <= h - 2).
  { unfold Py.enumerate. rewrite length_combine, length_map, length_seq, Nat.min_id.
    apply slice_to_length. lia. }
  nia.
Qed.

Lemma panel_body_cell_budget_witness :
  exists new,
    Curses.cells
      (screen (final (draw_lines
                        (Py.enumerate (Py.slice_to (repeat (Py.lit "0123456789") 9)
                                         (4 - 2)))
                        0 1 4 5 (init (Curses.newwin 24 80)))))
      = new ++ [] /\
    Z.of_nat (List.length new) <= (4 - 2) * (5 - 2).
Proof.
  apply (panel_body_cell_budget (repeat (Py.lit "0123456789") 9) 0 1 4 5
           (init (Curses.newwin 24 80))); [reflexivity | lia | lia].
Defined.

(** ** Spinner over a whole frame *)

Lemma bind_returns {A B : Type} (m : M A) (f : A -> M B) self :
  raised (bind m f self) = None ->
  exists a s1, m self = Return a s1 /\ bind m f self = f a s1.
Proof.
  intros Hr. unfold bind in *.
  destruct (m self) as [a s1|e s1]; simpl in *; [|discriminate].
  now exists a, s1.
Qed.

Lemma panel_spinner_idx t m y x h w self :
  spinner_in_range self ->
  spinner_idx (final (draw_panel t m y x h w self))
    = (spinner_idx self + updating self m) mod 10.
Proof.
  intros Hi.
  assert (E : spinner_idx (final (draw_panel t m y x h w self)) =
              spinner_idx (final ((if Py.str_eqb (status (get_record self m)) Updating
                                   then get_spinner else ret (Py.lit " ")) self))).
  { unfold draw_panel. unfold bind at 1. unfold load at 1.
    apply (final_bind spinner_idx). intros sp.
    apply keeps_panel_rest. reflexivity. }
  rewrite E. unfold updating.
  destruct (Py.str_eqb (status (get_record self m)) Updating).
  - unfold get_spinner.
    destruct (index_spinner_in_range _ Hi) as [char ->]. reflexivity.
  - simpl. rewrite Z.add_0_r. symmetry. apply Z.mod_small. exact Hi.
Qed.

Lemma records_get_record s1 s2 m :
  records s1 = records s2 -> get_record s1 m = get_record s2 m.
Proof.
  unfold records. intros H. injection H as H1 H2 H3 H4 H5.
  destruct m; assumption.
Qed.

Lemma panels_loop_spinner (ps : list (Py.str * Metric * Rect)) :
  forall self,
    spinner_in_range self ->
    raised (for_ ps (fun p => let '(t, m, r) := p in
                              draw_panel t m (top r) (left r) (height r) (width r))
              self) = None ->
    spinner_idx
      (final (for_ ps (fun p => let '(t, m, r) := p in
                                draw_panel t m (top r) (left r) (height r) (width r))
                self))
    = (spinner_idx self
       + fold_right Z.add 0 (map (fun p => updating self (snd (fst p))) ps)) mod 10.
Proof.
  induction ps as [|[[t m] r] ps IH]; intros self Hi Hr.
  - simpl. rewrite Z.add_0_r. symmetry. now apply Z.mod_small.
  - cbn [for_] in *.
    destruct (bind_returns _ _ self Hr) as ([] & s1 & E1 & E).
    pose proof (panel_spinner_idx t m (top r) (left r) (height r) (width r) self Hi)
      as Hs.
    pose proof (maintains_draw_panel t m (top r) (left r) (height r) (width r) self Hi)
      as Hi1.
    pose proof (keeps_records_draw_panel t m (top r) (left r) (height r) (width r) self)
      as Hrec.
    rewrite E1 in Hs, Hi1, Hrec. cbn [final] in Hs, Hi1, Hrec.
    rewrite E in Hr |- *. rewrite (IH s1 Hi1 Hr), Hs.
    cbn [map fold_right fst snd].
    replace (map (fun p => updating s1 (snd (fst p))) ps)
      with (map (fun p => updating self (snd (fst p))) ps).
    + rewrite Z.add_mod_idemp_l by lia. f_equal. lia.
    + apply map_ext. intros p. unfold updating.
      now rewrite (records_get_record s1 self).
Qed.

(** When [draw_screen] returns, the spinner index has moved on by the
    number of displayed records whose status is [Updating...], modulo 10:
    the one index is shared by the four panels, so the spinner turns faster
    the more collectors are busy. *)
Theorem frame_advances_spinner_per_updating_panel (ts : Py.str)
  (self : NetworkMonitor) :
  0 <= spinner_idx self < 10 ->
  raised (draw_screen ts self) = None ->
  spinner_idx (final (draw_screen ts self))
    = (spinner_idx self + updating self Bandwidth + updating self Latency
       + updating self Stability + updating self Routing) mod 10.
Proof.
  intros Hi Hr. revert Hr. unfold draw_screen.
  set (view := fun s : NetworkMonitor => (spinner_idx s, records s)).
  assert (V : forall s, view s = view self ->
                        spinner_in_range s /\ spinner_idx s = spinner_idx self /\
                        forall m, updating s m = updating self m).
  { intros s Hv. unfold view in Hv.
    pose proof (f_equal fst Hv) as H1. pose proof (f_equal snd Hv) as H2.
    cbn [fst snd] in H1, H2.
    split; [unfold spinner_in_range; now rewrite H1|]. split; [exact H1|].
    intros m. unfold updating. now rewrite (records_get_record s self m H2). }
  intros Hr.
  destruct (bind_returns _ _ self Hr) as ([] & s1 & E1 & E). rewrite E in Hr |- *.
  pose proof (keeps_on_screen view (fun s w => eq_refl) _ self : view (final (clear self)) = view self) as K1.
  rewrite E1 in K1. cbn [final] in K1. clear E E1.
  destruct (bind_returns _ _ s1 Hr) as ([max_y max_x] & s1' & E1 & E).
  rewrite E in Hr |- *. injection E1 as _ _ <-. clear E.
  destruct (bind_returns _ _ s1 Hr) as ([] & s2 & E1 & E). rewrite E in Hr |- *.
  pose proof (keeps_draw_borders view (fun s w => eq_refl) s1) as K2.
  rewrite E1 in K2. cbn [final] in K2. clear E E1.
  destruct (bind_returns _ _ s2 Hr) as ([] & s3 & E1 & E). rewrite E in Hr |- *.
  assert (K3 : view s3 = view s2).
  { change s3 with (final (Return tt s3 : outcome unit)). rewrite <- E1.
    unfold addstr_at. apply (keeps_on_screen view). reflexivity. }
  clear E E1.
  assert (V3 : view s3 = view self) by congruence.
  destruct (V s3 V3) as (R3 & I3 & U3).
  destruct (bind_returns _ _ s3 Hr) as ([] & s4 & E1 & E). rewrite E in Hr |- *.
  pose proof (panels_loop_spinner (panels max_y max_x) s3 R3) as L.
  rewrite E1 in L. specialize (L eq_refl). cbn [final] in L.
  match goal with
  | |- spinner_idx (final (?m s4)) = _ => assert (K5 : keeps spinner_idx m)
  end.
  { apply keeps_bind; [unfold addstr_at; apply keeps_on_screen; reflexivity|].
    intros _. apply keeps_ret. }
  rewrite (K5 s4), L, I3. unfold panels. cbn [map fold_right fst snd].
  rewrite !U3. f_equal. lia.
Qed.

Lemma frame_advances_spinner_per_updating_panel_witness :
  let self := store_status (store_status
                (set_spinner_idx (init (Curses.newwin 24 80)) 9)
                Bandwidth Updating) Latency Updating in
  spinner_idx (final (draw_screen (Py.lit "2026-01-01 00:00:00") self)) = 1.
Proof.
  intros self.
  rewrite (frame_advances_spinner_per_updating_panel
             (Py.lit "2026-01-01 00:00:00") self).
  - reflexivity.
  - simpl. lia.
  - vm_compute. reflexivity.
Defined.
